(** * jaraco.classes.properties: NonDataProperty and classproperty

    A shallow embedding of [src/jaraco/classes/properties.py] together with
    the part of Python's object model the two descriptors rely on: class
    dictionaries searched along the MRO, instance dictionaries, the
    data/non-data descriptor priority rule of [object.__getattribute__],
    [object.__setattr__], [type.__getattribute__] and [type.__setattr__],
    and the binding behaviour of functions, [classmethod] and
    [staticmethod].

    Scope of the object model.  Classes are the classes a program writes
    with [class]: their metaclass is [type] or [classproperty.Meta], and they
    do not override attribute access themselves ([__getattribute__],
    [__getattr__], [__setattr__], [__slots__]) nor define descriptor classes
    of their own.  Attribute names are the program's names; the attributes
    that [type] and [object] define themselves are not represented, so a
    lookup on the metatype finds nothing.  A call or an attribute access
    that Python can carry out and this model does not follow ends in
    [OutOfModel], never in a made-up result. *)

From Stdlib Require Import ZArith String List Bool Lia.
From stdpp Require Import base option list gmap strings.

Open Scope string_scope.

(** ** Values and objects *)

Definition loc := nat.

(** A function object is identified by the name of its [def]; the bodies are
    given separately (see [call_fn] below). *)
Definition fid := string.

(** The built-in and library types that occur as the type of a value:
    [type], [classproperty.Meta], [NoneType], [int], [str], [function],
    [method], [classmethod], [staticmethod], [NonDataProperty] and
    [classproperty]. *)
Inductive builtin :=
| BType | BMeta | BNoneType | BInt | BStr | BFunction | BMethod
| BClassmethod | BStaticmethod | BNonDataProperty | BClassproperty.

(** The metaclass of a class: [type] or [classproperty.Meta]. *)
Inductive metaclass := MType | MMeta.

Definition metaclass_type (m : metaclass) : builtin :=
  match m with MType => BType | MMeta => BMeta end.

Inductive val :=
| VNone
| VInt (z : Z)
| VStr (s : string)
| VFunc (f : fid)                 (* a plain function *)
| VMethod (fn : val) (self : val) (* a bound method: [fn] with first argument [self] *)
| VClassmethod (fn : val)         (* [classmethod(fn)] *)
| VStaticmethod (fn : val)        (* [staticmethod(fn)] *)
| VBuiltin (b : builtin)          (* one of the types above, as a value *)
| VRef (l : loc).                 (* an object of the heap *)

Abbreviation dict := (gmap string val).

Inductive obj :=
| OInstance (cls : loc) (d : dict)                  (* instance of a class, with its [__dict__] *)
| OClass (meta : metaclass) (mro : list loc) (d : dict)
    (* a class: its metaclass, the rest of its [__mro__] (itself and [object]
       left out) and its own [__dict__] *)
| ONonDataProperty (fget : val)                     (* [self.fget] *)
| OClassproperty (fget : val) (fset : val).         (* [self.fget], [self.fset] *)

Abbreviation heap := (list obj).

#[global] Instance builtin_eq_dec : EqDecision builtin.
Proof. solve_decision. Defined.

#[global] Instance val_eq_dec : EqDecision val.
Proof. solve_decision. Defined.

(** ** Outcomes and the state-and-exception monad *)

Inductive exn := AttributeError | TypeError | AssertionError.

Inductive outcome (A : Type) :=
| Ok (a : A) (h : heap)        (* normal completion *)
| Raise (e : exn) (h : heap)   (* an exception, with the state it leaves *)
| OutOfModel                   (* Python goes on, the model does not *)
| OutOfFuel.                   (* the call depth given to [run] is used up *)

Arguments Ok {A} a h.
Arguments Raise {A} e h.
Arguments OutOfModel {A}.
Arguments OutOfFuel {A}.

Definition M (A : Type) := heap -> outcome A.

Definition ret {A} (a : A) : M A := fun h => Ok a h.

Definition bind {A B} (m : M A) (k : A -> M B) : M B :=
  fun h =>
    match m h with
    | Ok a h' => k a h'
    | Raise e h' => Raise e h'
    | OutOfModel => OutOfModel
    | OutOfFuel => OutOfFuel
    end.

Definition raise {A} (e : exn) : M A := fun h => Raise e h.

Definition out_of_model {A} : M A := fun _ => OutOfModel.

Definition get_heap : M heap := fun h => Ok h h.

Definition alloc (o : obj) : M loc := fun h => Ok (length h) (h ++ [o]).

Notation "'let*' x ':=' m 'in' k" := (bind m (fun x => k))
  (at level 10, x name, m at level 100, k at level 200).
Notation "m ;;; k" := (bind m (fun _ => k))
  (at level 100, k at level 200, right associativity).

(** The value an outcome carries, if it completed normally. *)
Definition value_of {A} (o : outcome A) : option A :=
  match o with Ok a _ => Some a | _ => None end.

(** ** Basic operations of the object model *)

(** [x is y] *)
Definition py_is (x y : val) : bool := bool_decide (x = y).

(** The truth value Python itself gives an object, the one of every object
    whose type defines neither [__bool__] nor [__len__]: [None], [0] and the
    empty string are false, every other object is true.  What the code runs
    is [py_bool] below, which asks the object's class first. *)
Definition truthy (v : val) : bool :=
  match v with
  | VNone => false
  | VInt z => negb (Z.eqb z 0)
  | VStr s => negb (Nat.eqb (String.length s) 0)
  | _ => true
  end.

(** [type(v)].  A reference outside the heap has no type; [VNone] stands for
    that. *)
Definition type_of (h : heap) (v : val) : val :=
  match v with
  | VNone => VBuiltin BNoneType
  | VInt _ => VBuiltin BInt
  | VStr _ => VBuiltin BStr
  | VFunc _ => VBuiltin BFunction
  | VMethod _ _ => VBuiltin BMethod
  | VClassmethod _ => VBuiltin BClassmethod
  | VStaticmethod _ => VBuiltin BStaticmethod
  | VBuiltin _ => VBuiltin BType
  | VRef l =>
      match h !! l with
      | Some (OInstance c _) => VRef c
      | Some (OClass m _ _) => VBuiltin (metaclass_type m)
      | Some (ONonDataProperty _) => VBuiltin BNonDataProperty
      | Some (OClassproperty _ _) => VBuiltin BClassproperty
      | None => VNone
      end
  end.

(** [cls.__dict__] *)
Definition class_dict (h : heap) (c : loc) : dict :=
  match h !! c with
  | Some (OClass _ _ d) => d
  | _ => ∅
  end.

(** [cls.__mro__], without [object] *)
Definition class_mro (h : heap) (c : loc) : list loc :=
  match h !! c with
  | Some (OClass _ mro _) => c :: mro
  | _ => []
  end.

Fixpoint find_in (h : heap) (cs : list loc) (name : string) : option val :=
  match cs with
  | [] => None
  | c :: cs' =>
      match class_dict h c !! name with
      | Some v => Some v
      | None => find_in h cs' name
      end
  end.

(** The first entry for [name] in the dictionaries of the classes of the
    MRO (CPython's [_PyType_Lookup]). *)
Definition type_lookup (h : heap) (c : loc) (name : string) : option val :=
  find_in h (class_mro h c) name.

(** Does the type of [v] define [__get__]?  Functions, bound methods,
    [classmethod] and [staticmethod] objects and the two descriptors of this
    library do. *)
Definition has___get__ (h : heap) (v : val) : bool :=
  match v with
  | VFunc _ | VMethod _ _ | VClassmethod _ | VStaticmethod _ => true
  | VRef l =>
      match h !! l with
      | Some (ONonDataProperty _) | Some (OClassproperty _ _) => true
      | _ => false
      end
  | _ => false
  end.

(** Does the type of [v] define [__set__]?  Only [classproperty] does;
    [NonDataProperty] has no [__set__], which is what makes it a non-data
    descriptor. *)
Definition has___set__ (h : heap) (v : val) : bool :=
  match v with
  | VRef l =>
      match h !! l with
      | Some (OClassproperty _ _) => true
      | _ => false
      end
  | _ => false
  end.

(** [callable(v)]: functions, bound methods, [staticmethod] objects (since
    Python 3.10), types and classes, and instances of a class with
    [__call__]; a [classmethod] object is not callable. *)
Definition callable (h : heap) (v : val) : bool :=
  match v with
  | VFunc _ | VMethod _ _ | VStaticmethod _ | VBuiltin _ => true
  | VNone | VInt _ | VStr _ | VClassmethod _ => false
  | VRef l =>
      match h !! l with
      | Some (OClass _ _ _) => true
      | Some (OInstance c _) => bool_decide (is_Some (type_lookup h c "__call__"))
      | _ => false
      end
  end.

(** [bool(v)], the truth test of [if], [not] and [and].  An instance of a
    class that defines [__bool__] or [__len__] has the truth value those
    compute, which the model does not follow; every other object has the
    truth value [truthy] gives. *)
Definition py_bool (v : val) : M bool :=
  fun h =>
    match v with
    | VRef l =>
        match h !! l with
        | Some (OInstance c _) =>
            if bool_decide (is_Some (type_lookup h c "__bool__"))
               || bool_decide (is_Some (type_lookup h c "__len__"))
            then OutOfModel
            else Ok true h
        | Some _ => Ok true h
        | None => OutOfModel
        end
    | _ => Ok (truthy v) h
    end.

(** [isinstance(fn, (classmethod, staticmethod))] *)
Definition is_method_wrapper (fn : val) : bool :=
  match fn with
  | VClassmethod _ | VStaticmethod _ => true
  | _ => false
  end.

(** [assert b] *)
Definition py_assert (b : bool) : M unit :=
  if b then ret tt else raise AssertionError.

(** [cls()] for a class that defines neither [__new__] nor [__init__]: a new
    instance with an empty [__dict__]. *)
Definition new_instance (c : loc) : M val :=
  let* l := alloc (OInstance c ∅) in ret (VRef l).

(** ** The library and the attribute machinery

    Everything below runs the bodies of the program's functions through
    [call_fn]: [call_fn f args] is what calling the function named [f] on
    [args] does. *)

Section Semantics.

Variable call_fn : fid -> list val -> M val.

(** Calling [f] on the arguments [args] *)
Fixpoint call (f : val) (args : list val) : M val :=
  match f with
  | VFunc g => call_fn g args
  | VMethod fn self => call fn (self :: args)
  | VStaticmethod fn => call fn args
  | VNone | VInt _ | VStr _ | VClassmethod _ => raise TypeError
  | VBuiltin _ => out_of_model
  | VRef l =>
      fun h =>
        match h !! l with
        | Some (OClass _ _ _) =>
            if bool_decide (is_Some (type_lookup h l "__init__"))
               || bool_decide (is_Some (type_lookup h l "__new__"))
            then OutOfModel
            else match args with
                 | [] => new_instance l h
                 | _ => Raise TypeError h
                 end
        | Some (OInstance c _) =>
            if bool_decide (is_Some (type_lookup h c "__call__"))
            then OutOfModel else Raise TypeError h
        | Some _ => Raise TypeError h
        | None => OutOfModel
        end
  end.

(** [d.__get__(obj, owner)] for the descriptors Python itself provides:
    a function binds to [obj] (and is returned as it is when [obj] is
    [None]), a bound method stays as it is, a [classmethod] binds what it
    wraps to the class (as Python 3.13 does for every wrapped object, and
    every Python 3 does for a wrapped function), a [staticmethod] hands out
    what it wraps.  [__get__(None, None)] is refused. *)
Definition method___get__ (d obj owner : val) : M val :=
  match d with
  | VFunc _ | VMethod _ _ | VClassmethod _ | VStaticmethod _ =>
      if py_is obj VNone && py_is owner VNone then raise TypeError
      else
        match d with
        | VFunc _ => if py_is obj VNone then ret d else ret (VMethod d obj)
        | VClassmethod fn =>
            let* h := get_heap in
            ret (VMethod fn (if py_is owner VNone then type_of h obj else owner))
        | VStaticmethod fn => ret fn
        | _ => ret d
        end
  | VNone | VInt _ | VStr _ => raise AttributeError
  | VBuiltin _ | VRef _ => out_of_model
  end.

(** *** class NonDataProperty *)

(** [self.fget] *)
Definition NonDataProperty_fget (self : val) : M val :=
  fun h =>
    match self with
    | VRef l =>
        match h !! l with
        | Some (ONonDataProperty fget) => Ok fget h
        | _ => Raise AttributeError h
        end
    | _ => Raise AttributeError h
    end.

(** [NonDataProperty(fget)]: the two assertions of [__init__], then the new
    object with [self.fget = fget]. *)
Definition NonDataProperty___init__ (fget : val) : M val :=
  py_assert (negb (py_is fget VNone)) ;;;
  let* h := get_heap in
  py_assert (callable h fget) ;;;
  let* self := alloc (ONonDataProperty fget) in
  ret (VRef self).

Definition NonDataProperty___get__ (self obj objtype : val) : M val :=
  if py_is obj VNone then ret self
  else
    let* fget := NonDataProperty_fget self in
    call fget [obj].

(** *** class classproperty *)

(** [self.fget] and [self.fset] *)
Definition classproperty_fget (self : val) : M val :=
  fun h =>
    match self with
    | VRef l =>
        match h !! l with
        | Some (OClassproperty fget _) => Ok fget h
        | _ => Raise AttributeError h
        end
    | _ => Raise AttributeError h
    end.

Definition classproperty_fset (self : val) : M val :=
  fun h =>
    match self with
    | VRef l =>
        match h !! l with
        | Some (OClassproperty _ fset) => Ok fset h
        | _ => Raise AttributeError h
        end
    | _ => Raise AttributeError h
    end.

(** [self.fset = v] *)
Definition classproperty_set_fset (self : val) (v : val) : M unit :=
  fun h =>
    match self with
    | VRef l =>
        match h !! l with
        | Some (OClassproperty fget _) => Ok tt (<[l := OClassproperty fget v]> h)
        | _ => OutOfModel
        end
    | _ => OutOfModel
    end.

Definition _ensure_method (fn : val) : val :=
  let needs_method := negb (is_method_wrapper fn) in
  if needs_method then VClassmethod fn else fn.

Definition setter (self : val) (fset : val) : M val :=
  classproperty_set_fset self (_ensure_method fset) ;;;
  ret self.

(** [classproperty(fget, fset)]; [fset] is [VNone] when it is left out. *)
Definition classproperty___init__ (fget fset : val) : M val :=
  let* l := alloc (OClassproperty (_ensure_method fget) fset) in
  let self := VRef l in
  let* true_fset := py_bool fset in
  (if true_fset then setter self fset else ret fset) ;;;
  ret self.

Definition classproperty___get__ (self instance owner : val) : M val :=
  let* fget := classproperty_fget self in
  let* bound := method___get__ fget VNone owner in
  call bound [].

Definition classproperty___set__ (self owner value : val) : M val :=
  let* fset := classproperty_fset self in
  let* true_fset := py_bool fset in
  if negb true_fset then raise AttributeError
  else
    let* h := get_heap in
    let owner :=
      if negb (py_is (type_of h owner) (VBuiltin BMeta))
      then type_of h owner else owner in
    let* bound := method___get__ fset VNone owner in
    call bound [value].

(** *** Descriptor dispatch *)

(** [type(d).__get__(d, obj, owner)] for an entry [d] of a class dictionary
    whose type defines [__get__]. *)
Definition descr___get__ (d obj owner : val) : M val :=
  match d with
  | VRef l =>
      fun h =>
        match h !! l with
        | Some (ONonDataProperty _) => NonDataProperty___get__ d obj owner h
        | Some (OClassproperty _ _) => classproperty___get__ d obj owner h
        | _ => OutOfModel
        end
  | _ => method___get__ d obj owner
  end.

(** *** object.__getattribute__, object.__setattr__ *)

Definition object___getattribute__ (x : loc) (name : string) : M val :=
  fun h =>
    match h !! x with
    | Some (OInstance c d) =>
        match type_lookup h c name with
        | Some descr =>
            if has___get__ h descr && has___set__ h descr
            then descr___get__ descr (VRef x) (VRef c) h
            else
              match d !! name with
              | Some v => Ok v h
              | None =>
                  if has___get__ h descr
                  then descr___get__ descr (VRef x) (VRef c) h
                  else Ok descr h
              end
        | None =>
            match d !! name with
            | Some v => Ok v h
            | None => Raise AttributeError h
            end
        end
    | _ => OutOfModel
    end.

Definition object___setattr__ (x : loc) (name : string) (value : val) : M val :=
  fun h =>
    match h !! x with
    | Some (OInstance c d) =>
        match type_lookup h c name with
        | Some descr =>
            if has___set__ h descr
            then classproperty___set__ descr (VRef x) value h
            else Ok VNone (<[x := OInstance c (<[name := value]> d)]> h)
        | None => Ok VNone (<[x := OInstance c (<[name := value]> d)]> h)
        end
    | _ => OutOfModel
    end.

(** *** type.__getattribute__, type.__setattr__ *)

Definition type___getattribute__ (cls : loc) (name : string) : M val :=
  fun h =>
    match type_lookup h cls name with
    | Some attr =>
        if has___get__ h attr
        then descr___get__ attr VNone (VRef cls) h
        else Ok attr h
    | None => Raise AttributeError h
    end.

Definition type___setattr__ (cls : loc) (name : string) (value : val) : M val :=
  fun h =>
    match h !! cls with
    | Some (OClass m mro d) =>
        Ok VNone (<[cls := OClass m mro (<[name := value]> d)]> h)
    | _ => OutOfModel
    end.

(** *** class classproperty.Meta(type) *)

Definition Meta___setattr__ (self : loc) (key : string) (value : val) : M val :=
  let* h := get_heap in
  let obj := default VNone (class_dict h self !! key) in
  if py_is (type_of h obj) (VBuiltin BClassproperty)
  then classproperty___set__ obj (VRef self) value
  else type___setattr__ self key value.

(** *** Attribute access as the program writes it *)

(** [o.name] *)
Definition py_getattr (o : val) (name : string) : M val :=
  fun h =>
    match o with
    | VRef l =>
        match h !! l with
        | Some (OInstance _ _) => object___getattribute__ l name h
        | Some (OClass _ _ _) => type___getattribute__ l name h
        | _ => OutOfModel
        end
    | _ => OutOfModel
    end.

(** [o.name = value] *)
Definition py_setattr (o : val) (name : string) (value : val) : M val :=
  fun h =>
    match o with
    | VRef l =>
        match h !! l with
        | Some (OInstance _ _) => object___setattr__ l name value h
        | Some (OClass MMeta _ _) => Meta___setattr__ l name value h
        | Some (OClass MType _ _) => type___setattr__ l name value h
        | _ => OutOfModel
        end
    | _ => OutOfModel
    end.

(** [n] reads of [o.name] in a row, with the values they return. *)
Fixpoint reads (n : nat) (o : val) (name : string) : M (list val) :=
  match n with
  | O => ret []
  | S n' =>
      let* v := py_getattr o name in
      let* vs := reads n' o name in
      ret (v :: vs)
  end.

End Semantics.

(** [m.__get__(None, owner)(args)]: the call both [classproperty.__get__]
    and [classproperty.__set__] end in. *)
Definition bound_call (call_fn : fid -> list val -> M val)
    (m owner : val) (args : list val) : M val :=
  let* bound := method___get__ m VNone owner in
  call call_fn bound args.

(** ** Class-level state

    What a heap holds apart from its instances: classes and descriptor
    objects.  Two heaps with the same class-level state differ only in the
    instances they hold and in what those instances store. *)

Definition class_level (h : heap) (l : loc) : option obj :=
  match h !! l with
  | Some (OInstance _ _) => None
  | o => o
  end.

Definition same_class_level (h h' : heap) : Prop :=
  forall l, class_level h l = class_level h' l.

(** A value found in a class dictionary that is not a descriptor: reading it
    through the class or an instance gives the value itself. *)
Definition plain (h : heap) (v : val) : Prop :=
  has___get__ h v = false.

(** ** Programs: function bodies with open recursion

    A body receives the meaning of the calls it makes; [run] closes the
    recursion with a bound on the call depth. *)

Definition body := (fid -> list val -> M val) -> list val -> M val.

Definition program := fid -> option body.

Fixpoint run (p : program) (fuel : nat) (f : fid) (args : list val) : M val :=
  match fuel with
  | O => fun _ => OutOfFuel
  | S n =>
      match p f with
      | Some b => b (run p n) args
      | None => out_of_model
      end
  end.

(** *** The functions of the docstrings *)

(** [def foo(self): return 3] *)
Definition foo_3 : body :=
  fun _ args =>
    match args with
    | [_] => ret (VInt 3)
    | _ => raise TypeError
    end.

(** [def foo(cls): return cls.val] *)
Definition get_val : body :=
  fun rec args =>
    match args with
    | [cls] => py_getattr rec cls "val"
    | _ => raise TypeError
    end.

(** [def foo(cls, val): cls.val = val] *)
Definition set_val : body :=
  fun rec args =>
    match args with
    | [cls; v] => py_setattr rec cls "val" v ;;; ret VNone
    | _ => raise TypeError
    end.

(** [def foo(cls): return 'bar'] and [def foo(cls): return 'foo'] *)
Definition const_str (s : string) : body :=
  fun _ args =>
    match args with
    | [_] => ret (VStr s)
    | _ => raise TypeError
    end.

(** [def bar(): return 'bar'] *)
Definition bar_static : body :=
  fun _ args =>
    match args with
    | [] => ret (VStr "bar")
    | _ => raise TypeError
    end.

Definition doctest : program :=
  fun f =>
    if String.eqb f "foo_3" then Some foo_3
    else if String.eqb f "get_val" then Some get_val
    else if String.eqb f "set_val" then Some set_val
    else if String.eqb f "get_bar" then Some (const_str "bar")
    else if String.eqb f "get_foo" then Some (const_str "foo")
    else if String.eqb f "bar_static" then Some bar_static
    else None.

(** The functions of the docstrings, run to call depth 3. *)
Definition py : fid -> list val -> M val := run doctest 3.

(** *** The classes of the docstrings *)

(** [class X: @NonDataProperty def foo(self): return 3], then [x = X()]. *)
Definition build_NonData : M (val * val) :=
  let* p := NonDataProperty___init__ (VFunc "foo_3") in
  let* X := alloc (OClass MType [] {[ "foo" := p ]}) in
  let* x := new_instance X in
  ret (VRef X, x).

(** [class X(metaclass=meta): val = None; @classproperty def foo(cls): ...;
    @foo.setter def foo(cls, val): ...], then [x = X()] and [y = X()]. *)
Definition build_X (meta : metaclass) : M (val * val * val) :=
  let* p := classproperty___init__ (VFunc "get_val") VNone in
  let* p := setter p (VFunc "set_val") in
  let* X := alloc (OClass meta [] (<[ "val" := VNone ]> {[ "foo" := p ]})) in
  let* x := new_instance X in
  let* y := new_instance X in
  ret (VRef X, x, y).

(** The same, followed by [X.foo = W]. *)
Definition build_X_then_write (meta : metaclass) (W : val) : M val :=
  let* t := build_X meta in
  py_setattr py (fst (fst t)) "foo" W.

(** [class GetOnly(metaclass=meta): @classproperty def foo(cls): return 'bar'],
    then [g = GetOnly()]. *)
Definition build_GetOnly (meta : metaclass) : M (val * val) :=
  let* p := classproperty___init__ (VFunc "get_bar") VNone in
  let* G := alloc (OClass meta [] {[ "foo" := p ]}) in
  let* g := new_instance G in
  ret (VRef G, g).

(** [class Static(metaclass=classproperty.Meta)] with [foo] built from a
    [classmethod], [bar] from a [staticmethod] and, next to them, [baz]
    built from the plain function. *)
Definition build_Static : M (val * val) :=
  let* foo := classproperty___init__ (VClassmethod (VFunc "get_foo")) VNone in
  let* bar := classproperty___init__ (VStaticmethod (VFunc "bar_static")) VNone in
  let* baz := classproperty___init__ (VFunc "get_bar") VNone in
  let* S := alloc (OClass MMeta [] (<[ "foo" := foo ]> (<[ "bar" := bar ]> {[ "baz" := baz ]}))) in
  let* s := new_instance S in
  ret (VRef S, s).

(** [class Missing: foo = classproperty(None)] *)
Definition build_Missing : M val :=
  let* p := classproperty___init__ VNone VNone in
  let* C := alloc (OClass MType [] {[ "foo" := p ]}) in
  ret (VRef C).

(** The heap a construction leaves when started from the empty heap. *)
Definition heap_of {A} (m : M A) : heap :=
  match m [] with
  | Ok _ h => h
  | _ => []
  end.

(** ** Well-formed descriptors

    What [_ensure_method] is for: the getter of a [classproperty] is a
    [classmethod] or [staticmethod] object. *)
Definition methods_wrapped (h : heap) : Prop :=
  forall P fg fs,
    h !! P = Some (OClassproperty fg fs) ->
    is_method_wrapper fg = true.

(** The class [X] of the docstring, built with the metaclass, and
    [class Y(X): pass] with an instance [y = Y()]. *)
Definition build_Sub : M (val * val * val) :=
  let* t := build_X MMeta in
  match fst (fst t) with
  | VRef X =>
      let* Y := alloc (OClass MMeta [X] ∅) in
      let* y := new_instance Y in
      ret (VRef X, VRef Y, y)
  | _ => out_of_model
  end.

(** * Properties *)

(** ** The heap: instances do not matter to class-level lookups *)

Lemma same_class_level_refl (h : heap) : same_class_level h h.
Proof. intros l; reflexivity. Qed.

Lemma same_class_level_trans (h1 h2 h3 : heap) :
  same_class_level h1 h2 -> same_class_level h2 h3 -> same_class_level h1 h3.
Proof. intros H12 H23 l. rewrite H12. apply H23. Qed.

Lemma same_class_level_insert (h : heap) (x c c' : loc) (d d' : dict) :
  h !! x = Some (OInstance c d) ->
  same_class_level h (<[x := OInstance c' d']> h).
Proof.
  intros Hx l. unfold class_level.
  destruct (decide (x = l)) as [->|Hne].
  - rewrite list_lookup_insert_eq by (eapply lookup_lt_Some; eauto).
    now rewrite Hx.
  - now rewrite list_lookup_insert_ne.
Qed.

Lemma same_class_level_app (h : heap) (c : loc) (d : dict) :
  same_class_level h (h ++ [OInstance c d]).
Proof.
  intros l. unfold class_level.
  destruct (h !! l) as [o|] eqn:Hl.
  - now rewrite (lookup_app_l_Some _ _ _ _ Hl).
  - apply lookup_ge_None in Hl.
    destruct (decide (l = length h)) as [->|Hne].
    + now rewrite list_lookup_middle.
    + rewrite lookup_ge_None_2; [reflexivity|].
      rewrite length_app; simpl; lia.
Qed.

Lemma same_class_level_lookup (h h' : heap) (l : loc) (o : obj) :
  same_class_level h h' ->
  h !! l = Some o -> (forall c d, o <> OInstance c d) ->
  h' !! l = Some o.
Proof.
  intros H Hl Ho. specialize (H l). unfold class_level in H. rewrite Hl in H.
  destruct o; try (exfalso; eapply Ho; reflexivity);
    destruct (h' !! l) as [[]|]; congruence.
Qed.

Lemma same_class_level_dict (h h' : heap) (c : loc) :
  same_class_level h h' -> class_dict h c = class_dict h' c.
Proof.
  intros H. specialize (H c). unfold class_level in H. unfold class_dict.
  destruct (h !! c) as [[]|]; destruct (h' !! c) as [[]|]; congruence.
Qed.

Lemma same_class_level_mro (h h' : heap) (c : loc) :
  same_class_level h h' -> class_mro h c = class_mro h' c.
Proof.
  intros H. specialize (H c). unfold class_level in H. unfold class_mro.
  destruct (h !! c) as [[]|]; destruct (h' !! c) as [[]|]; congruence.
Qed.

Lemma same_class_level_find (h h' : heap) (cs : list loc) (name : string) :
  same_class_level h h' -> find_in h cs name = find_in h' cs name.
Proof.
  intros H. induction cs as [|c cs IH]; simpl; [reflexivity|].
  now rewrite (same_class_level_dict h h' c H), IH.
Qed.

Lemma same_class_level_type_lookup (h h' : heap) (c : loc) (name : string) :
  same_class_level h h' -> type_lookup h c name = type_lookup h' c name.
Proof.
  intros H. unfold type_lookup.
  now rewrite (same_class_level_mro h h' c H), (same_class_level_find h h' _ name H).
Qed.

(** A class finds in its own dictionary what is stored there. *)
Lemma type_lookup_own (h : heap) (c : loc) (m : metaclass) (mro : list loc)
    (d : dict) (name : string) (v : val) :
  h !! c = Some (OClass m mro d) -> d !! name = Some v ->
  type_lookup h c name = Some v.
Proof.
  intros Hc Hd. unfold type_lookup, class_mro. rewrite Hc. simpl.
  unfold class_dict. now rewrite Hc, Hd.
Qed.

(** ** NonDataProperty *)

Section NonDataPropertyFacts.

Variable call_fn : fid -> list val -> M val.

(** What an instance reads from an attribute held by a [NonDataProperty]:
    its own entry if it has one, the getter's result otherwise. *)
Lemma getattr_NonDataProperty (h : heap) (C P x : loc) (dx : dict)
    (fget : val) (attr : string) :
  type_lookup h C attr = Some (VRef P) ->
  h !! P = Some (ONonDataProperty fget) ->
  h !! x = Some (OInstance C dx) ->
  py_getattr call_fn (VRef x) attr h =
    match dx !! attr with
    | Some v => Ok v h
    | None => call call_fn fget [VRef x] h
    end.
Proof.
  intros HC HP Hx.
  unfold py_getattr, object___getattribute__. rewrite Hx, HC.
  unfold has___get__, has___set__. rewrite HP. simpl.
  destruct (dx !! attr); [reflexivity|].
  unfold NonDataProperty___get__, NonDataProperty_fget, bind. simpl.
  now rewrite HP.
Qed.

(** C5.  Through an instance, [__get__] calls the getter on that instance and
    returns what it returns; with no instance it returns the descriptor
    itself.  At the level of attributes: the class reads the descriptor
    object, an instance with no entry of its own reads the getter's result. *)
Theorem NonDataProperty_get_instance_or_class :
  forall (h : heap) (C P : loc) (fget : val) (attr : string),
    type_lookup h C attr = Some (VRef P) ->
    h !! P = Some (ONonDataProperty fget) ->
    (forall obj objtype, obj <> VNone ->
       NonDataProperty___get__ call_fn (VRef P) obj objtype h
       = call call_fn fget [obj] h)
    /\ (forall objtype,
          NonDataProperty___get__ call_fn (VRef P) VNone objtype h = Ok (VRef P) h)
    /\ (forall x dx, h !! x = Some (OInstance C dx) -> dx !! attr = None ->
          py_getattr call_fn (VRef x) attr h = call call_fn fget [VRef x] h)
    /\ (forall m mro d, h !! C = Some (OClass m mro d) ->
          py_getattr call_fn (VRef C) attr h = Ok (VRef P) h).
Proof.
  intros h C P fget attr HC HP. split; [|split; [|split]].
  - intros obj objtype Hobj. unfold NonDataProperty___get__, py_is.
    rewrite bool_decide_eq_false_2 by exact Hobj.
    unfold bind, NonDataProperty_fget. now rewrite HP.
  - intros objtype. reflexivity.
  - intros x dx Hx Hdx.
    rewrite (getattr_NonDataProperty h C P x dx fget attr HC HP Hx).
    now rewrite Hdx.
  - intros m mro d HCls.
    unfold py_getattr, type___getattribute__. rewrite HCls, HC.
    unfold has___get__. rewrite HP. simpl. now rewrite HP.
Qed.

(** Reads of an instance's own entry. *)
Lemma reads_own_entry (h : heap) (C P x : loc) (dx : dict) (fget : val)
    (attr : string) (V : val) (n : nat) :
  type_lookup h C attr = Some (VRef P) ->
  h !! P = Some (ONonDataProperty fget) ->
  h !! x = Some (OInstance C dx) ->
  dx !! attr = Some V ->
  reads call_fn n (VRef x) attr h = Ok (replicate n V) h.
Proof.
  intros HC HP Hx Hdx. induction n as [|n IH]; [reflexivity|].
  simpl. unfold bind.
  rewrite (getattr_NonDataProperty h C P x dx fget attr HC HP Hx), Hdx.
  unfold bind in IH. now rewrite IH.
Qed.

(** Reads through a pure getter. *)
Lemma reads_pure_getter (h : heap) (C P x : loc) (dx : dict) (fget : val)
    (g : val -> val) (attr : string) (n : nat) :
  (forall o h', call call_fn fget [o] h' = Ok (g o) h') ->
  type_lookup h C attr = Some (VRef P) ->
  h !! P = Some (ONonDataProperty fget) ->
  h !! x = Some (OInstance C dx) ->
  dx !! attr = None ->
  reads call_fn n (VRef x) attr h = Ok (replicate n (g (VRef x))) h.
Proof.
  intros Hpure HC HP Hx Hdx. induction n as [|n IH]; [reflexivity|].
  simpl. unfold bind.
  rewrite (getattr_NonDataProperty h C P x dx fget attr HC HP Hx), Hdx, Hpure.
  unfold bind in IH. now rewrite IH.
Qed.

(** C6.  With a pure getter computing [g]: before any write the instance
    reads [g x], as often as it reads; the write of [V] goes to the
    instance's own dictionary, after which the instance reads [V], as often
    as it reads; an instance created afterwards reads the getter's result. *)
Theorem NonDataProperty_read_write_read :
  forall (h : heap) (C P x : loc) (dx : dict) (fget : val) (g : val -> val)
         (attr : string) (V : val) (n : nat),
    (forall o h', call call_fn fget [o] h' = Ok (g o) h') ->
    type_lookup h C attr = Some (VRef P) ->
    h !! P = Some (ONonDataProperty fget) ->
    h !! x = Some (OInstance C dx) ->
    dx !! attr = None ->
    reads call_fn n (VRef x) attr h = Ok (replicate n (g (VRef x))) h
    /\ py_setattr call_fn (VRef x) attr V h
       = Ok VNone (<[x := OInstance C (<[attr := V]> dx)]> h)
    /\ reads call_fn n (VRef x) attr (<[x := OInstance C (<[attr := V]> dx)]> h)
       = Ok (replicate n V) (<[x := OInstance C (<[attr := V]> dx)]> h)
    /\ exists y h2,
         new_instance C (<[x := OInstance C (<[attr := V]> dx)]> h) = Ok (VRef y) h2
         /\ y <> x
         /\ reads call_fn n (VRef y) attr h2 = Ok (replicate n (g (VRef y))) h2.
Proof.
  intros h C P x dx fget g attr V n Hpure HC HP Hx Hdx.
  set (h1 := <[x := OInstance C (<[attr := V]> dx)]> h).
  assert (Hlt : x < length h) by (eapply lookup_lt_Some; eauto).
  assert (H01 : same_class_level h h1)
    by (eapply same_class_level_insert; eauto).
  assert (HC1 : type_lookup h1 C attr = Some (VRef P))
    by (rewrite <- (same_class_level_type_lookup h h1 C attr H01); exact HC).
  assert (HP1 : h1 !! P = Some (ONonDataProperty fget))
    by (eapply same_class_level_lookup; eauto; discriminate).
  assert (Hx1 : h1 !! x = Some (OInstance C (<[attr := V]> dx)))
    by (unfold h1; now rewrite list_lookup_insert_eq).
  split; [|split; [|split]].
  - eapply reads_pure_getter; eauto.
  - unfold py_setattr, object___setattr__. rewrite Hx, HC.
    unfold has___set__. now rewrite HP.
  - eapply reads_own_entry; eauto. apply lookup_insert_eq.
  - exists (length h1), (h1 ++ [OInstance C ∅])%list.
    assert (H12 : same_class_level h1 (h1 ++ [OInstance C ∅])%list)
      by apply same_class_level_app.
    split; [reflexivity|]. split.
    + unfold h1. rewrite length_insert. lia.
    + eapply reads_pure_getter with (dx := ∅); eauto.
      * rewrite <- (same_class_level_type_lookup _ _ C attr H12). exact HC1.
      * eapply same_class_level_lookup; eauto; discriminate.
      * apply list_lookup_middle. reflexivity.
Qed.

End NonDataPropertyFacts.

(** ** classproperty *)

Section ClasspropertyFacts.

Variable call_fn : fid -> list val -> M val.

(** A getter or setter in class-bound form is called with the class first. *)
Lemma bound_call_classmethod (fn owner : val) (args : list val) (h : heap) :
  owner <> VNone ->
  bound_call call_fn (VClassmethod fn) owner args h
  = call call_fn fn (owner :: args) h.
Proof.
  intros Hown. unfold bound_call, method___get__, bind, py_is.
  rewrite (bool_decide_eq_false_2 (owner = VNone)) by exact Hown.
  rewrite andb_false_r. reflexivity.
Qed.

(** A getter in static form is called without the class. *)
Lemma bound_call_staticmethod (fn owner : val) (args : list val) (h : heap) :
  owner <> VNone ->
  bound_call call_fn (VStaticmethod fn) owner args h = call call_fn fn args h.
Proof.
  intros Hown. unfold bound_call, method___get__, bind, py_is.
  rewrite (bool_decide_eq_false_2 (owner = VNone)) by exact Hown.
  rewrite andb_false_r. reflexivity.
Qed.

Lemma classproperty_get_eq (h : heap) (P : loc) (fg fs instance owner : val) :
  h !! P = Some (OClassproperty fg fs) ->
  classproperty___get__ call_fn (VRef P) instance owner h
  = bound_call call_fn fg owner [] h.
Proof.
  intros HP. unfold classproperty___get__, bound_call, bind, classproperty_fget.
  now rewrite HP.
Qed.

Lemma classproperty_set_eq (h : heap) (P : loc) (fg fs owner value : val) :
  h !! P = Some (OClassproperty fg fs) ->
  classproperty___set__ call_fn (VRef P) owner value h
  = if truthy fs
    then bound_call call_fn fs
           (if negb (py_is (type_of h owner) (VBuiltin BMeta))
            then type_of h owner else owner) [value] h
    else Raise AttributeError h.
Proof.
  intros HP. unfold classproperty___set__, bind, classproperty_fset.
  rewrite HP.
  destruct fs as [ | z | s | f | fn self | fn | fn | b | l ];
    try reflexivity.
  - simpl. destruct (Z.eqb z 0); reflexivity.
  - simpl. destruct (Nat.eqb (String.length s) 0); reflexivity.
  - unfold py_bool, truthy, bound_call, bind, method___get__, out_of_model.
    destruct (h !! l) as [[c dc| | | ]|]; try reflexivity.
    destruct (_ || _); reflexivity.
Qed.

(** Reading through an instance: the descriptor wins over the instance's own
    dictionary, whatever that holds. *)
Lemma getattr_classproperty_instance (h : heap) (x C P : loc) (dx : dict)
    (fg fs : val) (attr : string) :
  h !! x = Some (OInstance C dx) ->
  type_lookup h C attr = Some (VRef P) ->
  h !! P = Some (OClassproperty fg fs) ->
  py_getattr call_fn (VRef x) attr h = bound_call call_fn fg (VRef C) [] h.
Proof.
  intros Hx HC HP.
  unfold py_getattr, object___getattribute__. rewrite Hx, HC.
  unfold has___get__, has___set__. rewrite HP. simpl. rewrite HP.
  eapply classproperty_get_eq; eauto.
Qed.

Lemma getattr_classproperty_class (h : heap) (X P : loc) (m : metaclass)
    (mro : list loc) (d : dict) (fg fs : val) (attr : string) :
  h !! X = Some (OClass m mro d) ->
  type_lookup h X attr = Some (VRef P) ->
  h !! P = Some (OClassproperty fg fs) ->
  py_getattr call_fn (VRef X) attr h = bound_call call_fn fg (VRef X) [] h.
Proof.
  intros HX HC HP.
  unfold py_getattr, type___getattribute__. rewrite HX, HC.
  unfold has___get__. rewrite HP. simpl. rewrite HP.
  eapply classproperty_get_eq; eauto.
Qed.

(** Writing through an instance while the descriptor is in place. *)
Lemma setattr_classproperty_instance (h : heap) (x C P : loc) (dx : dict)
    (fg fs : val) (attr : string) (V : val) :
  h !! x = Some (OInstance C dx) ->
  type_lookup h C attr = Some (VRef P) ->
  h !! P = Some (OClassproperty fg fs) ->
  py_setattr call_fn (VRef x) attr V h
  = if truthy fs then bound_call call_fn fs (VRef C) [V] h
    else Raise AttributeError h.
Proof.
  intros Hx HC HP.
  unfold py_setattr, object___setattr__. rewrite Hx, HC.
  unfold has___set__. rewrite HP.
  rewrite (classproperty_set_eq h P fg fs _ _ HP).
  unfold type_of. rewrite Hx. reflexivity.
Qed.

(** Writing through a class built with the metaclass, the descriptor being in
    the class's own dictionary. *)
Lemma setattr_classproperty_Meta (h : heap) (X P : loc) (mro : list loc)
    (d : dict) (fg fs : val) (attr : string) (V : val) :
  h !! X = Some (OClass MMeta mro d) ->
  d !! attr = Some (VRef P) ->
  h !! P = Some (OClassproperty fg fs) ->
  py_setattr call_fn (VRef X) attr V h
  = if truthy fs then bound_call call_fn fs (VRef X) [V] h
    else Raise AttributeError h.
Proof.
  intros HX Hd HP.
  unfold py_setattr, Meta___setattr__, bind, get_heap. rewrite HX.
  unfold class_dict. rewrite HX, Hd. simpl. rewrite HP. simpl.
  rewrite (classproperty_set_eq h P fg fs _ _ HP).
  unfold type_of. rewrite HX. reflexivity.
Qed.

(** C7.  While the descriptor is what the attribute name resolves to, a read
    is the call of the getter bound to the class: the class itself when the
    class is read, the instance's class when an instance is read, and that
    for every content of the instance's own dictionary.  For a getter given
    as a function (or a [classmethod] of it) this is the function called on
    that class. *)
Theorem classproperty_read_invokes_getter :
  forall (h : heap) (P : loc) (fg fs : val) (attr : string),
    h !! P = Some (OClassproperty fg fs) ->
    (forall X m mro d,
        h !! X = Some (OClass m mro d) ->
        type_lookup h X attr = Some (VRef P) ->
        py_getattr call_fn (VRef X) attr h = bound_call call_fn fg (VRef X) [] h)
    /\ (forall x C dx,
          h !! x = Some (OInstance C dx) ->
          type_lookup h C attr = Some (VRef P) ->
          py_getattr call_fn (VRef x) attr h = bound_call call_fn fg (VRef C) [] h)
    /\ (forall g c,
          fg = _ensure_method (VFunc g) ->
          bound_call call_fn fg (VRef c) [] h = call_fn g [VRef c] h).
Proof.
  intros h P fg fs attr HP. split; [|split].
  - intros X m mro d HX HC. eapply getattr_classproperty_class; eauto.
  - intros x C dx Hx HC. eapply getattr_classproperty_instance; eauto.
  - intros g c ->. change (_ensure_method (VFunc g)) with (VClassmethod (VFunc g)).
    now rewrite bound_call_classmethod.
Qed.

(** An assignment on a class built with the metaclass, under a name its own
    dictionary does not hold a [classproperty] for. *)
Lemma Meta_setattr_other (h : heap) (X : loc) (mro : list loc) (d : dict)
    (key : string) (value : val) :
  h !! X = Some (OClass MMeta mro d) ->
  (forall P fg fs, d !! key = Some (VRef P) ->
                   h !! P <> Some (OClassproperty fg fs)) ->
  Meta___setattr__ call_fn X key value h = type___setattr__ X key value h.
Proof.
  intros HX Hnot.
  unfold Meta___setattr__, bind, get_heap, class_dict. rewrite HX.
  destruct (d !! key) as [v|] eqn:Hd; simpl; [|reflexivity].
  destruct v; simpl; try reflexivity.
  destruct (h !! l) as [[? | [] ? ? | ? | ? ?]|] eqn:Hl; simpl; try reflexivity.
  exfalso. eapply Hnot; eauto.
Qed.

Lemma setattr_Meta_other (h : heap) (X : loc) (mro : list loc) (d : dict)
    (key : string) (value : val) :
  h !! X = Some (OClass MMeta mro d) ->
  (forall P fg fs, d !! key = Some (VRef P) ->
                   h !! P <> Some (OClassproperty fg fs)) ->
  py_setattr call_fn (VRef X) key value h
  = Ok VNone (<[X := OClass MMeta mro (<[key := value]> d)]> h).
Proof.
  intros HX Hnot. unfold py_setattr.
  rewrite HX, (Meta_setattr_other h X mro d key value HX Hnot).
  unfold type___setattr__. now rewrite HX.
Qed.

(** C8.  [Meta.__setattr__] hands every assignment whose name is not held by
    a [classproperty] in the class's own dictionary to [type.__setattr__],
    which stores the value in the class dictionary; a name held by a
    [classproperty] goes to the descriptor's [__set__] instead. *)
Theorem Meta_setattr_passes_through :
  forall (h : heap) (X : loc) (mro : list loc) (d : dict) (key : string)
         (value : val),
    h !! X = Some (OClass MMeta mro d) ->
    ((forall P fg fs, d !! key = Some (VRef P) ->
                      h !! P <> Some (OClassproperty fg fs)) ->
       Meta___setattr__ call_fn X key value h = type___setattr__ X key value h
       /\ py_setattr call_fn (VRef X) key value h
          = Ok VNone (<[X := OClass MMeta mro (<[key := value]> d)]> h))
    /\ (forall P fg fs,
          d !! key = Some (VRef P) -> h !! P = Some (OClassproperty fg fs) ->
          Meta___setattr__ call_fn X key value h
          = classproperty___set__ call_fn (VRef P) (VRef X) value h).
Proof.
  intros h X mro d key value HX. split.
  - intros Hnot. split.
    + now apply (Meta_setattr_other h X mro d).
    + now apply setattr_Meta_other.
  - intros P fg fs Hd HP.
    unfold Meta___setattr__, bind, get_heap, class_dict. rewrite HX, Hd.
    simpl. rewrite HP. reflexivity.
Qed.

(** C10.  An assignment on an instance, while the attribute name resolves to
    a [classproperty] with a setter, is the call of the setter bound to the
    instance's class, with or without the metaclass; nothing else is
    written, in particular nothing in the instance.  For a setter given as a
    function this is the function called on the class and the value.  And
    whatever state this leaves, as long as the descriptor is in place any
    two instances of the class read the same. *)
Theorem instance_write_calls_setter_on_class :
  forall (h : heap) (x C P : loc) (dx : dict) (fg fs : val) (attr : string)
         (V : val),
    h !! x = Some (OInstance C dx) ->
    type_lookup h C attr = Some (VRef P) ->
    h !! P = Some (OClassproperty fg fs) ->
    truthy fs = true ->
    py_setattr call_fn (VRef x) attr V h = bound_call call_fn fs (VRef C) [V] h
    /\ (forall s, fs = _ensure_method (VFunc s) ->
          py_setattr call_fn (VRef x) attr V h = call_fn s [VRef C; V] h)
    /\ (forall h1 fg1 fs1 y z dy dz,
          type_lookup h1 C attr = Some (VRef P) ->
          h1 !! P = Some (OClassproperty fg1 fs1) ->
          h1 !! y = Some (OInstance C dy) ->
          h1 !! z = Some (OInstance C dz) ->
          py_getattr call_fn (VRef y) attr h1 = py_getattr call_fn (VRef z) attr h1).
Proof.
  intros h x C P dx fg fs attr V Hx HC HP Hfs.
  assert (E : py_setattr call_fn (VRef x) attr V h
              = bound_call call_fn fs (VRef C) [V] h).
  { rewrite (setattr_classproperty_instance h x C P dx fg fs attr V Hx HC HP).
    now rewrite Hfs. }
  split; [exact E|split].
  - intros s ->. rewrite E.
    change (_ensure_method (VFunc s)) with (VClassmethod (VFunc s)).
    now rewrite bound_call_classmethod.
  - intros h1 fg1 fs1 y z dy dz HC1 HP1 Hy Hz.
    rewrite (getattr_classproperty_instance h1 y C P dy fg1 fs1 attr Hy HC1 HP1).
    now rewrite (getattr_classproperty_instance h1 z C P dz fg1 fs1 attr Hz HC1 HP1).
Qed.

End ClasspropertyFacts.

(** ** Construction *)

Section ConstructionFacts.

Variable call_fn : fid -> list val -> M val.

Lemma NonDataProperty_init_eq (fget : val) (h : heap) :
  NonDataProperty___init__ fget h
  = if negb (py_is fget VNone) && callable h fget
    then Ok (VRef (length h)) (h ++ [ONonDataProperty fget])
    else Raise AssertionError h.
Proof.
  unfold NonDataProperty___init__, bind, py_assert, get_heap, alloc, ret, raise.
  destruct (negb (py_is fget VNone)); simpl; [|reflexivity].
  destruct (callable h fget); reflexivity.
Qed.

(** The truth test changes nothing, and it is false only of [None], [0] and
    the empty string. *)
Lemma py_bool_Ok (v : val) (b : bool) (h h' : heap) :
  py_bool v h = Ok b h' -> h' = h /\ b = truthy v.
Proof.
  unfold py_bool. destruct v as [ | z | s | f | fn self | fn | fn | b0 | l ];
    try (intros [= <- <-]; split; reflexivity).
  destruct (h !! l) as [[c dc| | | ]|]; try discriminate;
    try (intros [= <- <-]; split; reflexivity).
  destruct (_ || _); [discriminate|]. intros [= <- <-]; split; reflexivity.
Qed.

Lemma py_bool_false (v : val) (h h' : heap) :
  py_bool v h = Ok false h -> py_bool v h' = Ok false h'.
Proof.
  unfold py_bool. destruct v as [ | z | s | f | fn self | fn | fn | b0 | l ];
    try (intros H; congruence).
  destruct (h !! l) as [[c dc| | | ]|]; try discriminate.
  destruct (_ || _); discriminate.
Qed.

(** An object that is not a class, put at the end of the heap, changes no
    lookup along an MRO and no truth test. *)
Lemma class_dict_app_other (h : heap) (o : obj) (c : loc) :
  (forall m mro d, o <> OClass m mro d) ->
  class_dict (h ++ [o]) c = class_dict h c.
Proof.
  intros Ho. unfold class_dict.
  destruct (h !! c) as [o'|] eqn:Hc.
  - now rewrite (lookup_app_l_Some _ _ _ _ Hc).
  - apply lookup_ge_None in Hc.
    destruct (decide (c = length h)) as [->|Hne].
    + rewrite list_lookup_middle by reflexivity.
      destruct o; try reflexivity. exfalso. eapply Ho; reflexivity.
    + rewrite lookup_ge_None_2; [reflexivity|].
      rewrite length_app; simpl; lia.
Qed.

Lemma class_mro_app_other (h : heap) (o : obj) (c : loc) :
  (forall m mro d, o <> OClass m mro d) ->
  class_mro (h ++ [o]) c = class_mro h c.
Proof.
  intros Ho. unfold class_mro.
  destruct (h !! c) as [o'|] eqn:Hc.
  - now rewrite (lookup_app_l_Some _ _ _ _ Hc).
  - apply lookup_ge_None in Hc.
    destruct (decide (c = length h)) as [->|Hne].
    + rewrite list_lookup_middle by reflexivity.
      destruct o; try reflexivity. exfalso. eapply Ho; reflexivity.
    + rewrite lookup_ge_None_2; [reflexivity|].
      rewrite length_app; simpl; lia.
Qed.

Lemma type_lookup_app_other (h : heap) (o : obj) (c : loc) (name : string) :
  (forall m mro d, o <> OClass m mro d) ->
  type_lookup (h ++ [o]) c name = type_lookup h c name.
Proof.
  intros Ho. unfold type_lookup. rewrite (class_mro_app_other h o c Ho).
  induction (class_mro h c) as [|c' cs IH]; simpl; [reflexivity|].
  now rewrite (class_dict_app_other h o c' Ho), IH.
Qed.

Lemma py_bool_app (v : val) (b : bool) (h : heap) (o : obj) :
  (forall m mro d, o <> OClass m mro d) ->
  py_bool v h = Ok b h -> py_bool v (h ++ [o])%list = Ok b (h ++ [o])%list.
Proof.
  intros Ho. unfold py_bool. destruct v as [ | z | s | f | fn self | fn | fn | b0 | l ];
    try (intros H; congruence).
  destruct (h !! l) as [o'|] eqn:Hl; [|discriminate].
  rewrite (lookup_app_l_Some _ _ _ _ Hl).
  destruct o' as [c dc| | | ]; try (intros H; congruence).
  rewrite !(type_lookup_app_other h o c _ Ho).
  destruct (_ || _); [discriminate|]. intros H; congruence.
Qed.

Lemma insert_last (h : heap) (o o' : obj) :
  <[length h := o']> (h ++ [o])%list = (h ++ [o'])%list.
Proof.
  replace (length h) with (length h + 0) by lia. now rewrite insert_app_r.
Qed.

(** [classproperty(fget, fset)] when the truth test of [fset] gives [b]. *)
Lemma classproperty_init_eq (fget fset : val) (b : bool) (h : heap) :
  py_bool fset h = Ok b h ->
  classproperty___init__ fget fset h
  = Ok (VRef (length h))
       (h ++ [OClassproperty (_ensure_method fget)
                (if b then _ensure_method fset else fset)]).
Proof.
  intros Hb.
  unfold classproperty___init__, bind, alloc.
  rewrite (py_bool_app fset b h (OClassproperty (_ensure_method fget) fset)
             ltac:(intros; discriminate) Hb).
  destruct b; [|reflexivity].
  unfold setter, bind, classproperty_set_fset, ret.
  rewrite list_lookup_middle by reflexivity.
  now rewrite insert_last.
Qed.

(** Whenever [classproperty(fget, fset)] completes, it has put one new
    descriptor at the end of the heap, with the getter in method form. *)
Lemma classproperty_init_Ok (fget fset r : val) (h h' : heap) :
  classproperty___init__ fget fset h = Ok r h' ->
  exists fs, h' = (h ++ [OClassproperty (_ensure_method fget) fs])%list.
Proof.
  unfold classproperty___init__, bind, alloc.
  destruct (py_bool fset (h ++ [OClassproperty (_ensure_method fget) fset])%list)
    as [b hb| | |] eqn:Hb; try discriminate.
  destruct (py_bool_Ok _ _ _ _ Hb) as [-> _].
  destruct b.
  - unfold setter, bind, classproperty_set_fset, ret.
    rewrite list_lookup_middle by reflexivity. rewrite insert_last.
    intros [= _ <-]. eauto.
  - intros [= _ <-]. eauto.
Qed.

(** C4, as the code has it.  [NonDataProperty(fget)] is refused, with an
    assertion error and nothing allocated, exactly when [fget] is [None] or
    not callable, and otherwise yields the new descriptor holding [fget].
    [classproperty] does not check its getter: built from any [fget], [None]
    and what cannot be called included, and no setter, it yields a new
    descriptor, with [fget] put in class-bound form unless it is a
    [classmethod] or [staticmethod] object already. *)
Theorem construction_checks :
  forall (h : heap) (fget : val),
    (py_is fget VNone = true \/ callable h fget = false ->
       NonDataProperty___init__ fget h = Raise AssertionError h)
    /\ (py_is fget VNone = false -> callable h fget = true ->
          NonDataProperty___init__ fget h
          = Ok (VRef (length h)) (h ++ [ONonDataProperty fget]))
    /\ classproperty___init__ fget VNone h
       = Ok (VRef (length h)) (h ++ [OClassproperty (_ensure_method fget) VNone]).
Proof.
  intros h fget. split; [|split].
  - intros [Hn|Hc]; rewrite NonDataProperty_init_eq.
    + now rewrite Hn.
    + rewrite Hc. now rewrite andb_false_r.
  - intros Hn Hc. rewrite NonDataProperty_init_eq. now rewrite Hn, Hc.
  - now apply (classproperty_init_eq fget VNone false).
Qed.

End ConstructionFacts.

(** C4, as stated, fails for [classproperty]: built on the missing getter
    [None] it is constructed all the same, and the class that holds it is
    built; the failure comes with the first read. *)
Lemma classproperty_accepts_missing_getter :
  classproperty___init__ VNone VNone []
  = Ok (VRef 0) [OClassproperty (VClassmethod VNone) VNone]
  /\ build_Missing [] = Ok (VRef 1) (heap_of build_Missing)
  /\ py_getattr py (VRef 1) "foo" (heap_of build_Missing)
     = Raise TypeError (heap_of build_Missing).
Proof. repeat split; vm_compute; reflexivity. Qed.

(** ** Writing to a classproperty that has no setter *)

Section GetterOnlyFacts.

Variable call_fn : fid -> list val -> M val.

(** C3, as the code has it.  A [classproperty] built from a getter alone
    has no setter; while it has none, an assignment that reaches it fails
    with [AttributeError] and changes nothing: an assignment on the class
    object of a class built with the metaclass, and an assignment on an
    instance of any class whose attribute resolves to the descriptor. *)
Theorem getter_only_write_fails :
  forall (h0 h : heap) (P : loc) (fget fg : val) (attr : string) (V : val),
    h !! P = Some (OClassproperty fg VNone) ->
    classproperty___init__ fget VNone h0
    = Ok (VRef (length h0)) (h0 ++ [OClassproperty (_ensure_method fget) VNone])
    /\ (forall X mro d,
          h !! X = Some (OClass MMeta mro d) -> d !! attr = Some (VRef P) ->
          py_setattr call_fn (VRef X) attr V h = Raise AttributeError h)
    /\ (forall x C dx,
          h !! x = Some (OInstance C dx) ->
          type_lookup h C attr = Some (VRef P) ->
          py_setattr call_fn (VRef x) attr V h = Raise AttributeError h).
Proof.
  intros h0 h P fget fg attr V HP. split; [|split].
  - now apply (classproperty_init_eq fget VNone false).
  - intros X mro d HX Hd.
    now rewrite (setattr_classproperty_Meta call_fn h X P mro d fg VNone attr V HX Hd HP).
  - intros x C dx Hx HC.
    now rewrite (setattr_classproperty_instance call_fn h x C P dx fg VNone attr V Hx HC HP).
Qed.

End GetterOnlyFacts.

(** C3, as stated, fails on a class that is not built with the metaclass:
    the assignment on the class object raises nothing, it replaces the
    getter-only descriptor by the value. *)
Lemma getter_only_class_write_without_Meta :
  exists h',
    py_setattr py (VRef 1) "foo" (VInt 3) (heap_of (build_GetOnly MType))
    = Ok VNone h'
    /\ heap_of (build_GetOnly MType) !! 0
       = Some (OClassproperty (VClassmethod (VFunc "get_bar")) VNone)
    /\ class_dict (heap_of (build_GetOnly MType)) 1 !! "foo" = Some (VRef 0)
    /\ class_dict h' 1 !! "foo" = Some (VInt 3)
    /\ py_getattr py (VRef 1) "foo" h' = Ok (VInt 3) h'.
Proof.
  eexists. split; [vm_compute; reflexivity|].
  repeat split; vm_compute; reflexivity.
Qed.

(** ** Getters given in class-bound or static form *)

Section WrappedGetterFacts.

Variable call_fn : fid -> list val -> M val.

(** C9.  Let [g] be a function of the class and [g0] the function without
    arguments that returns the same.  A [classproperty] built from
    [classmethod(g)] is the very descriptor built from [g]; and one built
    from [classmethod(g)] or from [staticmethod(g0)] reads, through the class
    and through every instance, as the one built from [g] does. *)
Theorem wrapped_getter_reads_alike :
  forall (h : heap) (g g0 : fid) (w : val) (P1 P2 : loc) (fs1 fs2 : val)
         (a1 a2 : string),
    (forall cls h', call_fn g [cls] h' = call_fn g0 [] h') ->
    w = VClassmethod (VFunc g) \/ w = VStaticmethod (VFunc g0) ->
    h !! P1 = Some (OClassproperty (_ensure_method w) fs1) ->
    h !! P2 = Some (OClassproperty (_ensure_method (VFunc g)) fs2) ->
    (forall h0 fset,
        classproperty___init__ (VClassmethod (VFunc g)) fset h0
        = classproperty___init__ (VFunc g) fset h0)
    /\ (forall X m mro d,
          h !! X = Some (OClass m mro d) ->
          type_lookup h X a1 = Some (VRef P1) ->
          type_lookup h X a2 = Some (VRef P2) ->
          py_getattr call_fn (VRef X) a1 h = py_getattr call_fn (VRef X) a2 h)
    /\ (forall x C dx,
          h !! x = Some (OInstance C dx) ->
          type_lookup h C a1 = Some (VRef P1) ->
          type_lookup h C a2 = Some (VRef P2) ->
          py_getattr call_fn (VRef x) a1 h = py_getattr call_fn (VRef x) a2 h).
Proof.
  intros h g g0 w P1 P2 fs1 fs2 a1 a2 Hequiv Hw HP1 HP2.
  assert (Hcall : forall c,
             bound_call call_fn (_ensure_method w) (VRef c) [] h
             = bound_call call_fn (_ensure_method (VFunc g)) (VRef c) [] h).
  { intros c. destruct Hw as [-> | ->].
    - reflexivity.
    - change (_ensure_method (VStaticmethod (VFunc g0)))
        with (VStaticmethod (VFunc g0)).
      change (_ensure_method (VFunc g)) with (VClassmethod (VFunc g)).
      rewrite bound_call_staticmethod, bound_call_classmethod by discriminate.
      simpl. symmetry. apply Hequiv. }
  split; [|split].
  - intros h0 fset. reflexivity.
  - intros X m mro d HX H1 H2.
    rewrite (getattr_classproperty_class call_fn h X P1 m mro d _ fs1 a1 HX H1 HP1).
    rewrite (getattr_classproperty_class call_fn h X P2 m mro d _ fs2 a2 HX H2 HP2).
    apply Hcall.
  - intros x C dx Hx H1 H2.
    rewrite (getattr_classproperty_instance call_fn h x C P1 dx _ fs1 a1 Hx H1 HP1).
    rewrite (getattr_classproperty_instance call_fn h x C P2 dx _ fs2 a2 Hx H2 HP2).
    apply Hcall.
Qed.

End WrappedGetterFacts.

(** ** Writing through the class, reading through instances *)

Section SharedStateFacts.

Variable call_fn : fid -> list val -> M val.

(** C1.  Let [X] be built with the metaclass and hold under [attr] a
    [classproperty] with a setter, and let that setter store on the class:
    called on [X] and [V] it completes, leaves the descriptor in place, and
    from then on the getter called on [X] returns [V] whatever the instances
    are.  Then the assignment [X.attr = V] is that call of the setter, and
    afterwards every instance of [X], one that existed as well as one
    created now, reads [V]. *)
Theorem class_write_then_instance_read :
  forall (h h1 : heap) (X P : loc) (mro : list loc) (d : dict)
         (fg fs fg1 fs1 : val) (attr : string) (V r : val),
    h !! X = Some (OClass MMeta mro d) ->
    d !! attr = Some (VRef P) ->
    h !! P = Some (OClassproperty fg fs) ->
    truthy fs = true ->
    bound_call call_fn fs (VRef X) [V] h = Ok r h1 ->
    type_lookup h1 X attr = Some (VRef P) ->
    h1 !! P = Some (OClassproperty fg1 fs1) ->
    (forall h', same_class_level h1 h' ->
                bound_call call_fn fg1 (VRef X) [] h' = Ok V h') ->
    py_setattr call_fn (VRef X) attr V h = Ok r h1
    /\ (forall x dx,
          h1 !! x = Some (OInstance X dx) ->
          py_getattr call_fn (VRef x) attr h1 = Ok V h1)
    /\ (exists y h2,
          new_instance X h1 = Ok (VRef y) h2
          /\ h1 !! y = None
          /\ h2 !! y = Some (OInstance X ∅)
          /\ py_getattr call_fn (VRef y) attr h2 = Ok V h2).
Proof.
  intros h h1 X P mro d fg fs fg1 fs1 attr V r HX Hd HP Hfs Hset HC1 HP1 Hget.
  split; [|split].
  - rewrite (setattr_classproperty_Meta call_fn h X P mro d fg fs attr V HX Hd HP).
    now rewrite Hfs.
  - intros x dx Hx.
    rewrite (getattr_classproperty_instance call_fn h1 x X P dx fg1 fs1 attr Hx HC1 HP1).
    apply Hget, same_class_level_refl.
  - exists (length h1), (h1 ++ [OInstance X ∅])%list.
    assert (H12 : same_class_level h1 (h1 ++ [OInstance X ∅])%list)
      by apply same_class_level_app.
    assert (Hy : (h1 ++ [OInstance X ∅])%list !! length h1 = Some (OInstance X ∅))
      by (apply list_lookup_middle; reflexivity).
    split; [reflexivity|]. split; [now apply lookup_ge_None_2|].
    split; [exact Hy|].
    rewrite (getattr_classproperty_instance call_fn _ _ X P ∅ fg1 fs1 attr Hy).
    + now apply Hget.
    + rewrite <- (same_class_level_type_lookup _ _ X attr H12). exact HC1.
    + eapply same_class_level_lookup; eauto; discriminate.
Qed.

Lemma same_class_level_has_get (h h' : heap) (v : val) :
  same_class_level h h' -> has___get__ h v = has___get__ h' v.
Proof.
  intros H. destruct v; try reflexivity. simpl.
  specialize (H l). unfold class_level in H.
  destruct (h !! l) as [[]|]; destruct (h' !! l) as [[]|];
    congruence.
Qed.

(** Reading, through the class or an instance, an attribute whose class
    entry is a plain value. *)
Lemma getattr_plain_class (h : heap) (X : loc) (m : metaclass)
    (mro : list loc) (d : dict) (attr : string) (W : val) :
  h !! X = Some (OClass m mro d) -> d !! attr = Some W -> plain h W ->
  py_getattr call_fn (VRef X) attr h = Ok W h.
Proof.
  intros HX Hd HW. unfold py_getattr, type___getattribute__.
  rewrite HX, (type_lookup_own h X m mro d attr W HX Hd).
  unfold plain in HW. now rewrite HW.
Qed.

Lemma getattr_plain_instance (h : heap) (X x : loc) (m : metaclass)
    (mro : list loc) (d dx : dict) (attr : string) (W : val) :
  h !! X = Some (OClass m mro d) -> d !! attr = Some W -> plain h W ->
  h !! x = Some (OInstance X dx) ->
  py_getattr call_fn (VRef x) attr h = Ok (default W (dx !! attr)) h.
Proof.
  intros HX Hd HW Hx. unfold py_getattr, object___getattribute__.
  rewrite Hx, (type_lookup_own h X m mro d attr W HX Hd).
  unfold plain in HW. rewrite HW. simpl.
  destruct (dx !! attr); reflexivity.
Qed.

(** C2, as the code has it.  On a class that is not built with the
    metaclass an assignment on the class object replaces whatever the class
    dictionary holds under the name, a [classproperty] included.  Once the
    class holds a plain value [W] there, an assignment of [V] on an instance
    is stored in that instance's own dictionary: the instance then reads
    [V], the class still reads [W], and every other instance reads what it
    read before. *)
Theorem legacy_instance_write_after_class_write :
  forall (h : heap) (X x : loc) (mro : list loc) (d dx : dict)
         (attr : string) (W V : val),
    h !! X = Some (OClass MType mro d) ->
    d !! attr = Some W ->
    plain h W ->
    h !! x = Some (OInstance X dx) ->
    (forall h0 d0 W0,
        h0 !! X = Some (OClass MType mro d0) ->
        py_setattr call_fn (VRef X) attr W0 h0
        = Ok VNone (<[X := OClass MType mro (<[attr := W0]> d0)]> h0))
    /\ py_setattr call_fn (VRef x) attr V h
       = Ok VNone (<[x := OInstance X (<[attr := V]> dx)]> h)
    /\ py_getattr call_fn (VRef x) attr (<[x := OInstance X (<[attr := V]> dx)]> h)
       = Ok V (<[x := OInstance X (<[attr := V]> dx)]> h)
    /\ py_getattr call_fn (VRef X) attr h = Ok W h
    /\ py_getattr call_fn (VRef X) attr (<[x := OInstance X (<[attr := V]> dx)]> h)
       = Ok W (<[x := OInstance X (<[attr := V]> dx)]> h)
    /\ (forall y dy,
          y <> x -> h !! y = Some (OInstance X dy) ->
          value_of (py_getattr call_fn (VRef y) attr
                      (<[x := OInstance X (<[attr := V]> dx)]> h))
          = value_of (py_getattr call_fn (VRef y) attr h)).
Proof.
  intros h X x mro d dx attr W V HX Hd HW Hx.
  set (h1 := <[x := OInstance X (<[attr := V]> dx)]> h).
  assert (H01 : same_class_level h h1)
    by (eapply same_class_level_insert; eauto).
  assert (HX1 : h1 !! X = Some (OClass MType mro d))
    by (eapply same_class_level_lookup; eauto; discriminate).
  assert (HW1 : plain h1 W)
    by (unfold plain; rewrite <- (same_class_level_has_get h h1 W H01); exact HW).
  assert (Hx1 : h1 !! x = Some (OInstance X (<[attr := V]> dx))).
  { unfold h1. rewrite list_lookup_insert_eq; [reflexivity|].
    eapply lookup_lt_Some; eauto. }
  split; [|split; [|split; [|split; [|split]]]].
  - intros h0 d0 W0 H0. unfold py_setattr, type___setattr__. now rewrite H0.
  - unfold py_setattr, object___setattr__.
    rewrite Hx, (type_lookup_own h X MType mro d attr W HX Hd).
    unfold has___set__. unfold plain, has___get__ in HW.
    destruct W; try reflexivity.
    destruct (h !! l) as [[]|]; try reflexivity; discriminate.
  - rewrite (getattr_plain_instance h1 X x MType mro d _ attr W HX1 Hd HW1 Hx1).
    now rewrite lookup_insert_eq.
  - eapply getattr_plain_class; eauto.
  - eapply getattr_plain_class; eauto.
  - intros y dy Hne Hy.
    assert (Hy1 : h1 !! y = Some (OInstance X dy))
      by (unfold h1; rewrite list_lookup_insert_ne; auto).
    rewrite (getattr_plain_instance h1 X y MType mro d dy attr W HX1 Hd HW1 Hy1).
    now rewrite (getattr_plain_instance h X y MType mro d dy attr W HX Hd HW Hy).
Qed.

End SharedStateFacts.

(** C2, as stated, fails while the descriptor is in place: on the class of
    the docstring, not built with the metaclass, the assignment [x.foo = 5]
    goes to the setter, so the class and the other instance [y], which read
    [None] before, read [5] afterwards, and nothing is stored in [x]. *)
Lemma legacy_instance_write_with_descriptor :
  exists h1,
    build_X MType [] = Ok (VRef 1, VRef 2, VRef 3) (heap_of (build_X MType))
    /\ py_setattr py (VRef 2) "foo" (VInt 5) (heap_of (build_X MType)) = Ok VNone h1
    /\ py_getattr py (VRef 1) "foo" (heap_of (build_X MType))
       = Ok VNone (heap_of (build_X MType))
    /\ py_getattr py (VRef 1) "foo" h1 = Ok (VInt 5) h1
    /\ py_getattr py (VRef 3) "foo" (heap_of (build_X MType))
       = Ok VNone (heap_of (build_X MType))
    /\ py_getattr py (VRef 3) "foo" h1 = Ok (VInt 5) h1
    /\ h1 !! 2 = Some (OInstance 1 ∅).
Proof.
  eexists. split; [vm_compute; reflexivity|].
  split; [vm_compute; reflexivity|].
  repeat split; vm_compute; reflexivity.
Qed.

(** ** The functions of the docstring store on the class

    [get_val] and [set_val], run to any call depth that lets them start,
    read and write the class's [val]: the pair the claims about shared state
    are about. *)

Lemma get_val_reads_class (n : nat) (h : heap) (X : loc) (m : metaclass)
    (mro : list loc) (d : dict) (V : val) :
  h !! X = Some (OClass m mro d) -> d !! "val" = Some V -> plain h V ->
  bound_call (run doctest (S n)) (VClassmethod (VFunc "get_val")) (VRef X) [] h
  = Ok V h.
Proof.
  intros HX Hd HV. rewrite bound_call_classmethod by discriminate.
  change (call (run doctest (S n)) (VFunc "get_val") [VRef X] h)
    with (py_getattr (run doctest n) (VRef X) "val" h).
  eapply getattr_plain_class; eauto.
Qed.

Lemma set_val_writes_class (n : nat) (h : heap) (X : loc) (mro : list loc)
    (d : dict) (V : val) :
  h !! X = Some (OClass MMeta mro d) ->
  (forall P fg fs, d !! "val" = Some (VRef P) ->
                   h !! P <> Some (OClassproperty fg fs)) ->
  bound_call (run doctest (S n)) (VClassmethod (VFunc "set_val")) (VRef X) [V] h
  = Ok VNone (<[X := OClass MMeta mro (<["val" := V]> d)]> h).
Proof.
  intros HX Hnot. rewrite bound_call_classmethod by discriminate.
  change (call (run doctest (S n)) (VFunc "set_val") [VRef X; V] h)
    with ((py_setattr (run doctest n) (VRef X) "val" V ;;; ret VNone) h).
  unfold bind. now rewrite (setattr_Meta_other _ h X mro d "val" V HX Hnot).
Qed.

(** * The docstrings as instances

    Each general statement above, taken at the classes of the docstrings. *)

Lemma NonDataProperty_get_instance_or_class_witness :
  type_lookup (heap_of build_NonData) 1 "foo" = Some (VRef 0)
  /\ heap_of build_NonData !! 0 = Some (ONonDataProperty (VFunc "foo_3"))
  /\ py_getattr py (VRef 2) "foo" (heap_of build_NonData)
     = Ok (VInt 3) (heap_of build_NonData)
  /\ py_getattr py (VRef 1) "foo" (heap_of build_NonData)
     = Ok (VRef 0) (heap_of build_NonData).
Proof.
  assert (H1 : type_lookup (heap_of build_NonData) 1 "foo" = Some (VRef 0))
    by (vm_compute; reflexivity).
  assert (H2 : heap_of build_NonData !! 0 = Some (ONonDataProperty (VFunc "foo_3")))
    by (vm_compute; reflexivity).
  destruct (NonDataProperty_get_instance_or_class py _ 1 0 _ "foo" H1 H2)
    as (_ & _ & Hinst & Hcls).
  split; [exact H1|]. split; [exact H2|]. split.
  - rewrite (Hinst 2 ∅); vm_compute; reflexivity.
  - apply (Hcls MType [] {[ "foo" := VRef 0 ]}). vm_compute; reflexivity.
Defined.

Lemma NonDataProperty_read_write_read_witness :
  (forall o h', call py (VFunc "foo_3") [o] h' = Ok (VInt 3) h')
  /\ reads py 2 (VRef 2) "foo" (heap_of build_NonData)
     = Ok [VInt 3; VInt 3] (heap_of build_NonData)
  /\ py_setattr py (VRef 2) "foo" (VInt 4) (heap_of build_NonData)
     = Ok VNone (<[2 := OInstance 1 {[ "foo" := VInt 4 ]}]> (heap_of build_NonData))
  /\ reads py 2 (VRef 2) "foo"
       (<[2 := OInstance 1 {[ "foo" := VInt 4 ]}]> (heap_of build_NonData))
     = Ok [VInt 4; VInt 4]
          (<[2 := OInstance 1 {[ "foo" := VInt 4 ]}]> (heap_of build_NonData)).
Proof.
  assert (Hpure : forall o h', call py (VFunc "foo_3") [o] h' = Ok (VInt 3) h')
    by (intros o h'; reflexivity).
  assert (H1 : type_lookup (heap_of build_NonData) 1 "foo" = Some (VRef 0))
    by (vm_compute; reflexivity).
  assert (H2 : heap_of build_NonData !! 0 = Some (ONonDataProperty (VFunc "foo_3")))
    by (vm_compute; reflexivity).
  assert (H3 : heap_of build_NonData !! 2 = Some (OInstance 1 ∅))
    by (vm_compute; reflexivity).
  assert (H4 : (∅ : dict) !! "foo" = None) by reflexivity.
  destruct (NonDataProperty_read_write_read py _ 1 0 2 ∅ _ (fun _ => VInt 3)
              "foo" (VInt 4) 2 Hpure H1 H2 H3 H4) as (Ha & Hb & Hc & _).
  split; [exact Hpure|]. split; [exact Ha|]. split; [exact Hb|exact Hc].
Defined.

Lemma classproperty_read_invokes_getter_witness :
  heap_of (build_X MMeta) !! 0
  = Some (OClassproperty (VClassmethod (VFunc "get_val")) (VClassmethod (VFunc "set_val")))
  /\ py_getattr py (VRef 1) "foo" (heap_of (build_X MMeta))
     = py "get_val" [VRef 1] (heap_of (build_X MMeta))
  /\ py_getattr py (VRef 2) "foo" (heap_of (build_X MMeta))
     = py "get_val" [VRef 1] (heap_of (build_X MMeta)).
Proof.
  assert (H0 : heap_of (build_X MMeta) !! 0
               = Some (OClassproperty (VClassmethod (VFunc "get_val"))
                         (VClassmethod (VFunc "set_val"))))
    by (vm_compute; reflexivity).
  destruct (classproperty_read_invokes_getter py _ 0 _ _ "foo" H0)
    as (Hcls & Hinst & Hfun).
  split; [exact H0|]. split.
  - rewrite <- (Hfun "get_val" 1 eq_refl).
    apply (Hcls 1 MMeta [] (<[ "val" := VNone ]> {[ "foo" := VRef 0 ]}));
      vm_compute; reflexivity.
  - rewrite <- (Hfun "get_val" 1 eq_refl).
    apply (Hinst 2 1 ∅); vm_compute; reflexivity.
Defined.

Lemma Meta_setattr_passes_through_witness :
  heap_of (build_X MMeta) !! 1
  = Some (OClass MMeta [] (<[ "val" := VNone ]> {[ "foo" := VRef 0 ]}))
  /\ py_setattr py (VRef 1) "val" (VInt 7) (heap_of (build_X MMeta))
     = Ok VNone
         (<[1 := OClass MMeta []
                   (<[ "val" := VInt 7 ]> (<[ "val" := VNone ]> {[ "foo" := VRef 0 ]}))]>
            (heap_of (build_X MMeta)))
  /\ Meta___setattr__ py 1 "foo" (VInt 7) (heap_of (build_X MMeta))
     = classproperty___set__ py (VRef 0) (VRef 1) (VInt 7) (heap_of (build_X MMeta)).
Proof.
  assert (H1 : heap_of (build_X MMeta) !! 1
               = Some (OClass MMeta [] (<[ "val" := VNone ]> {[ "foo" := VRef 0 ]})))
    by (vm_compute; reflexivity).
  split; [exact H1|]. split.
  - destruct (Meta_setattr_passes_through py _ 1 [] _ "val" (VInt 7) H1)
      as (Hother & _).
    apply Hother. intros P fg fs HP. vm_compute in HP. discriminate HP.
  - destruct (Meta_setattr_passes_through py _ 1 [] _ "foo" (VInt 7) H1)
      as (_ & Hheld).
    eapply Hheld; vm_compute; reflexivity.
Defined.

Lemma wrapped_getter_reads_alike_witness :
  (forall cls h', py "get_bar" [cls] h' = py "bar_static" [] h')
  /\ heap_of build_Static !! 1
     = Some (OClassproperty (VStaticmethod (VFunc "bar_static")) VNone)
  /\ heap_of build_Static !! 2
     = Some (OClassproperty (VClassmethod (VFunc "get_bar")) VNone)
  /\ py_getattr py (VRef 3) "bar" (heap_of build_Static)
     = py_getattr py (VRef 3) "baz" (heap_of build_Static)
  /\ py_getattr py (VRef 4) "bar" (heap_of build_Static)
     = py_getattr py (VRef 4) "baz" (heap_of build_Static).
Proof.
  assert (He : forall cls h', py "get_bar" [cls] h' = py "bar_static" [] h')
    by (intros cls h'; reflexivity).
  assert (H1 : heap_of build_Static !! 1
               = Some (OClassproperty (_ensure_method (VStaticmethod (VFunc "bar_static"))) VNone))
    by (vm_compute; reflexivity).
  assert (H2 : heap_of build_Static !! 2
               = Some (OClassproperty (_ensure_method (VFunc "get_bar")) VNone))
    by (vm_compute; reflexivity).
  destruct (wrapped_getter_reads_alike py _ "get_bar" "bar_static" _ 1 2 _ _
              "bar" "baz" He (or_intror eq_refl) H1 H2) as (_ & Hcls & Hinst).
  split; [exact He|]. split; [exact H1|]. split; [exact H2|]. split.
  - apply (Hcls 3 MMeta []
             (<[ "foo" := VRef 0 ]> (<[ "bar" := VRef 1 ]> {[ "baz" := VRef 2 ]})));
      vm_compute; reflexivity.
  - apply (Hinst 4 3 ∅); vm_compute; reflexivity.
Defined.

Lemma instance_write_calls_setter_on_class_witness :
  heap_of (build_X MType) !! 2 = Some (OInstance 1 ∅)
  /\ type_lookup (heap_of (build_X MType)) 1 "foo" = Some (VRef 0)
  /\ heap_of (build_X MType) !! 0
     = Some (OClassproperty (VClassmethod (VFunc "get_val")) (VClassmethod (VFunc "set_val")))
  /\ py_setattr py (VRef 2) "foo" (VInt 5) (heap_of (build_X MType))
     = py "set_val" [VRef 1; VInt 5] (heap_of (build_X MType)).
Proof.
  assert (H2 : heap_of (build_X MType) !! 2 = Some (OInstance 1 ∅))
    by (vm_compute; reflexivity).
  assert (H1 : type_lookup (heap_of (build_X MType)) 1 "foo" = Some (VRef 0))
    by (vm_compute; reflexivity).
  assert (H0 : heap_of (build_X MType) !! 0
               = Some (OClassproperty (VClassmethod (VFunc "get_val"))
                         (VClassmethod (VFunc "set_val"))))
    by (vm_compute; reflexivity).
  destruct (instance_write_calls_setter_on_class py _ 2 1 0 ∅ _ _ "foo" (VInt 5)
              H2 H1 H0 eq_refl) as (_ & Hfun & _).
  split; [exact H2|]. split; [exact H1|]. split; [exact H0|].
  apply Hfun. reflexivity.
Defined.

Lemma getter_only_write_fails_witness :
  heap_of (build_GetOnly MMeta) !! 0
  = Some (OClassproperty (VClassmethod (VFunc "get_bar")) VNone)
  /\ py_setattr py (VRef 1) "foo" (VInt 3) (heap_of (build_GetOnly MMeta))
     = Raise AttributeError (heap_of (build_GetOnly MMeta))
  /\ py_setattr py (VRef 2) "foo" (VInt 3) (heap_of (build_GetOnly MMeta))
     = Raise AttributeError (heap_of (build_GetOnly MMeta)).
Proof.
  assert (H0 : heap_of (build_GetOnly MMeta) !! 0
               = Some (OClassproperty (VClassmethod (VFunc "get_bar")) VNone))
    by (vm_compute; reflexivity).
  destruct (getter_only_write_fails py [] _ 0 (VFunc "get_bar") _ "foo" (VInt 3) H0)
    as (_ & Hcls & Hinst).
  split; [exact H0|]. split.
  - apply (Hcls 1 [] {[ "foo" := VRef 0 ]}); vm_compute; reflexivity.
  - apply (Hinst 2 1 ∅); vm_compute; reflexivity.
Defined.

Lemma class_write_then_instance_read_witness :
  heap_of (build_X MMeta) !! 1
  = Some (OClass MMeta [] (<[ "val" := VNone ]> {[ "foo" := VRef 0 ]}))
  /\ bound_call py (VClassmethod (VFunc "set_val")) (VRef 1) [VInt 3]
       (heap_of (build_X MMeta))
     = Ok VNone (heap_of (build_X_then_write MMeta (VInt 3)))
  /\ (forall h', same_class_level (heap_of (build_X_then_write MMeta (VInt 3))) h' ->
                 bound_call py (VClassmethod (VFunc "get_val")) (VRef 1) [] h'
                 = Ok (VInt 3) h')
  /\ py_setattr py (VRef 1) "foo" (VInt 3) (heap_of (build_X MMeta))
     = Ok VNone (heap_of (build_X_then_write MMeta (VInt 3)))
  /\ py_getattr py (VRef 2) "foo" (heap_of (build_X_then_write MMeta (VInt 3)))
     = Ok (VInt 3) (heap_of (build_X_then_write MMeta (VInt 3)))
  /\ py_getattr py (VRef 3) "foo" (heap_of (build_X_then_write MMeta (VInt 3)))
     = Ok (VInt 3) (heap_of (build_X_then_write MMeta (VInt 3))).
Proof.
  assert (H1 : heap_of (build_X MMeta) !! 1
               = Some (OClass MMeta [] (<[ "val" := VNone ]> {[ "foo" := VRef 0 ]})))
    by (vm_compute; reflexivity).
  assert (H2 : (<[ "val" := VNone ]> {[ "foo" := VRef 0 ]} : dict) !! "foo"
               = Some (VRef 0))
    by (vm_compute; reflexivity).
  assert (H3 : heap_of (build_X MMeta) !! 0
               = Some (OClassproperty (VClassmethod (VFunc "get_val"))
                         (VClassmethod (VFunc "set_val"))))
    by (vm_compute; reflexivity).
  assert (H5 : bound_call py (VClassmethod (VFunc "set_val")) (VRef 1) [VInt 3]
                 (heap_of (build_X MMeta))
               = Ok VNone (heap_of (build_X_then_write MMeta (VInt 3))))
    by (vm_compute; reflexivity).
  assert (H6 : type_lookup (heap_of (build_X_then_write MMeta (VInt 3))) 1 "foo"
               = Some (VRef 0))
    by (vm_compute; reflexivity).
  assert (H7 : heap_of (build_X_then_write MMeta (VInt 3)) !! 0
               = Some (OClassproperty (VClassmethod (VFunc "get_val"))
                         (VClassmethod (VFunc "set_val"))))
    by (vm_compute; reflexivity).
  assert (H8 : forall h',
             same_class_level (heap_of (build_X_then_write MMeta (VInt 3))) h' ->
             bound_call py (VClassmethod (VFunc "get_val")) (VRef 1) [] h'
             = Ok (VInt 3) h').
  { intros h' Hs.
    apply (get_val_reads_class 2 h' 1 MMeta []
             (<[ "val" := VInt 3 ]> (<[ "val" := VNone ]> {[ "foo" := VRef 0 ]}))).
    - eapply same_class_level_lookup; [exact Hs| |discriminate].
      vm_compute; reflexivity.
    - vm_compute; reflexivity.
    - reflexivity. }
  destruct (class_write_then_instance_read py _ _ 1 0 [] _ _ _ _ _ "foo" (VInt 3)
              VNone H1 H2 H3 eq_refl H5 H6 H7 H8) as (Hw & Hr & _).
  split; [exact H1|]. split; [exact H5|]. split; [exact H8|].
  split; [exact Hw|]. split.
  - apply (Hr 2 ∅). vm_compute; reflexivity.
  - apply (Hr 3 ∅). vm_compute; reflexivity.
Defined.

Lemma legacy_instance_write_after_class_write_witness :
  heap_of (build_X_then_write MType (VInt 4)) !! 1
  = Some (OClass MType [] (<[ "foo" := VInt 4 ]> (<[ "val" := VNone ]> {[ "foo" := VRef 0 ]})))
  /\ plain (heap_of (build_X_then_write MType (VInt 4))) (VInt 4)
  /\ py_setattr py (VRef 2) "foo" (VInt 5) (heap_of (build_X_then_write MType (VInt 4)))
     = Ok VNone (<[2 := OInstance 1 {[ "foo" := VInt 5 ]}]>
                   (heap_of (build_X_then_write MType (VInt 4))))
  /\ py_getattr py (VRef 2) "foo"
       (<[2 := OInstance 1 {[ "foo" := VInt 5 ]}]>
          (heap_of (build_X_then_write MType (VInt 4))))
     = Ok (VInt 5)
          (<[2 := OInstance 1 {[ "foo" := VInt 5 ]}]>
             (heap_of (build_X_then_write MType (VInt 4))))
  /\ py_getattr py (VRef 1) "foo"
       (<[2 := OInstance 1 {[ "foo" := VInt 5 ]}]>
          (heap_of (build_X_then_write MType (VInt 4))))
     = Ok (VInt 4)
          (<[2 := OInstance 1 {[ "foo" := VInt 5 ]}]>
             (heap_of (build_X_then_write MType (VInt 4)))).
Proof.
  assert (H1 : heap_of (build_X_then_write MType (VInt 4)) !! 1
               = Some (OClass MType []
                         (<[ "foo" := VInt 4 ]>
                            (<[ "val" := VNone ]> {[ "foo" := VRef 0 ]}))))
    by (vm_compute; reflexivity).
  assert (H2 : (<[ "foo" := VInt 4 ]> (<[ "val" := VNone ]> {[ "foo" := VRef 0 ]}) : dict)
                 !! "foo" = Some (VInt 4))
    by (vm_compute; reflexivity).
  assert (H3 : plain (heap_of (build_X_then_write MType (VInt 4))) (VInt 4))
    by reflexivity.
  assert (H4 : heap_of (build_X_then_write MType (VInt 4)) !! 2 = Some (OInstance 1 ∅))
    by (vm_compute; reflexivity).
  destruct (legacy_instance_write_after_class_write py _ 1 2 [] _ ∅ "foo"
              (VInt 4) (VInt 5) H1 H2 H3 H4) as (_ & Hw & Hr & _ & Hc & _).
  split; [exact H1|]. split; [exact H3|].
  split; [exact Hw|]. split; [exact Hr|exact Hc].
Defined.

(** * Further properties of the code *)

(** ** setter *)

Section SetterFacts.

Variable call_fn : fid -> list val -> M val.

Lemma setter_eq (h : heap) (P : loc) (fg fs fset : val) :
  h !! P = Some (OClassproperty fg fs) ->
  setter (VRef P) fset h
  = Ok (VRef P) (<[P := OClassproperty fg (_ensure_method fset)]> h).
Proof.
  intros HP. unfold setter, bind, classproperty_set_fset, ret. now rewrite HP.
Qed.

(** X1.  [setter] returns the descriptor it was called on, keeps the getter
    and every other object, and replaces the setter by the class-bound form
    of its argument; called again on what it returned, the later setter is
    the one that stays, as if the earlier call had not happened. *)
Theorem setter_chains_last_wins :
  forall (h : heap) (P : loc) (fg fs s1 s2 : val),
    h !! P = Some (OClassproperty fg fs) ->
    setter (VRef P) s1 h
    = Ok (VRef P) (<[P := OClassproperty fg (_ensure_method s1)]> h)
    /\ (forall l, l <> P ->
          (<[P := OClassproperty fg (_ensure_method s1)]> h) !! l = h !! l)
    /\ (let* p := setter (VRef P) s1 in setter p s2) h = setter (VRef P) s2 h.
Proof.
  intros h P fg fs s1 s2 HP.
  assert (Hlt : P < length h) by (eapply lookup_lt_Some; eauto).
  split; [|split].
  - now apply setter_eq with (fs := fs).
  - intros l Hl. now apply list_lookup_insert_ne.
  - unfold bind at 1. rewrite (setter_eq h P fg fs s1 HP).
    rewrite (setter_eq _ P fg (_ensure_method s1) s2)
      by now rewrite list_lookup_insert_eq.
    rewrite (setter_eq h P fg fs s2 HP).
    now rewrite list_insert_insert_eq.
Qed.

(** X2.  A getter-only [classproperty] held by a class built with the
    metaclass refuses the assignment; once a function [s] has been attached
    with [setter], the same assignment on the class, and on any instance of
    it, is the call of [s] on the class and the value, and reading the
    class is still the call of the same getter. *)
Theorem setter_then_write_calls_it :
  forall (h : heap) (X P : loc) (mro : list loc) (d : dict) (fg : val)
         (s : fid) (attr : string) (V : val),
    h !! X = Some (OClass MMeta mro d) ->
    d !! attr = Some (VRef P) ->
    h !! P = Some (OClassproperty fg VNone) ->
    py_setattr call_fn (VRef X) attr V h = Raise AttributeError h
    /\ exists h',
         setter (VRef P) (VFunc s) h = Ok (VRef P) h'
         /\ py_setattr call_fn (VRef X) attr V h' = call_fn s [VRef X; V] h'
         /\ (forall x dx,
               h' !! x = Some (OInstance X dx) ->
               py_setattr call_fn (VRef x) attr V h' = call_fn s [VRef X; V] h')
         /\ py_getattr call_fn (VRef X) attr h'
            = bound_call call_fn fg (VRef X) [] h'.
Proof.
  intros h X P mro d fg s attr V HX Hd HP.
  assert (Hne : P <> X) by (intros ->; congruence).
  assert (Hlt : P < length h) by (eapply lookup_lt_Some; eauto).
  split.
  - now rewrite (setattr_classproperty_Meta call_fn h X P mro d fg VNone attr V HX Hd HP).
  - exists (<[P := OClassproperty fg (_ensure_method (VFunc s))]> h).
    assert (HX' : (<[P := OClassproperty fg (_ensure_method (VFunc s))]> h) !! X
                  = Some (OClass MMeta mro d))
      by (rewrite list_lookup_insert_ne; auto).
    assert (HP' : (<[P := OClassproperty fg (_ensure_method (VFunc s))]> h) !! P
                  = Some (OClassproperty fg (VClassmethod (VFunc s))))
      by now rewrite list_lookup_insert_eq.
    split; [now apply setter_eq with (fs := VNone)|]. split; [|split].
    + rewrite (setattr_classproperty_Meta call_fn _ X P mro d fg _ attr V HX' Hd HP').
      simpl truthy. cbv iota. now rewrite bound_call_classmethod.
    + intros x dx Hx.
      rewrite (setattr_classproperty_instance call_fn _ x X P dx fg _ attr V Hx
                 (type_lookup_own _ X MMeta mro d attr _ HX' Hd) HP').
      simpl truthy. cbv iota. now rewrite bound_call_classmethod.
    + eapply getattr_classproperty_class; eauto.
      eapply type_lookup_own; eauto.
Qed.

(** X3.  Giving the setter to the constructor is attaching it afterwards:
    for an [fset] whose truth test gives true, [classproperty(fget, fset)]
    is [classproperty(fget).setter(fset)].  An [fset] whose truth test gives
    false is kept as it is and not put in class-bound form, and the
    descriptor then refuses every assignment that reaches it, like one
    built without a setter. *)
Theorem init_with_setter_is_init_then_setter :
  forall (h : heap) (fget fset : val),
    (py_bool fset h = Ok true h ->
       classproperty___init__ fget fset h
       = (let* p := classproperty___init__ fget VNone in setter p fset) h)
    /\ (py_bool fset h = Ok false h ->
          classproperty___init__ fget fset h
          = Ok (VRef (length h)) (h ++ [OClassproperty (_ensure_method fget) fset])
          /\ forall h' P fg x C dx attr V,
               h' !! P = Some (OClassproperty fg fset) ->
               h' !! x = Some (OInstance C dx) ->
               type_lookup h' C attr = Some (VRef P) ->
               py_setattr call_fn (VRef x) attr V h' = Raise AttributeError h').
Proof.
  intros h fget fset. split.
  - intros Ht. unfold bind.
    rewrite (classproperty_init_eq fget fset true h Ht).
    rewrite (classproperty_init_eq fget VNone false h eq_refl).
    rewrite (setter_eq _ (length h) (_ensure_method fget) VNone fset)
      by (apply list_lookup_middle; reflexivity).
    now rewrite insert_last.
  - intros Hf. split.
    + now rewrite (classproperty_init_eq fget fset false h Hf).
    + intros h' P fg x C dx attr V HP Hx HC.
      rewrite (setattr_classproperty_instance call_fn h' x C P dx fg fset attr V Hx HC HP).
      destruct (py_bool_Ok _ _ _ _ Hf) as [_ Hb]. now rewrite <- Hb.
Qed.

End SetterFacts.

(** ** The fields of a classproperty stay in method form *)

Lemma ensure_method_wrapped (fn : val) : is_method_wrapper (_ensure_method fn) = true.
Proof. destruct fn; reflexivity. Qed.

Lemma methods_wrapped_nil : methods_wrapped [].
Proof. intros P fg fs H. destruct P; discriminate H. Qed.

Lemma methods_wrapped_app (h : heap) (o : obj) :
  methods_wrapped h ->
  (forall fg fs, o = OClassproperty fg fs -> is_method_wrapper fg = true) ->
  methods_wrapped (h ++ [o]).
Proof.
  intros Hh Ho P fg fs HP.
  destruct (decide (P < length h)) as [Hlt|Hge].
  - rewrite lookup_app_l in HP by exact Hlt. eapply Hh; eauto.
  - destruct (decide (P = length h)) as [->|Hne].
    + rewrite list_lookup_middle in HP by reflexivity.
      apply (Ho fg fs). congruence.
    + rewrite lookup_ge_None_2 in HP; [discriminate|].
      rewrite length_app; simpl; lia.
Qed.

Lemma methods_wrapped_insert (h : heap) (l : loc) (o : obj) :
  methods_wrapped h ->
  (forall fg fs, o = OClassproperty fg fs -> is_method_wrapper fg = true) ->
  methods_wrapped (<[l := o]> h).
Proof.
  intros Hh Ho P fg fs HP.
  destruct (decide (l = P)) as [->|Hne].
  - destruct (decide (P < length h)) as [Hlt|Hge].
    + rewrite list_lookup_insert_eq in HP by exact Hlt.
      apply (Ho fg fs). congruence.
    + rewrite list_insert_ge in HP by lia. eapply Hh; eauto.
  - rewrite list_lookup_insert_ne in HP by exact Hne. eapply Hh; eauto.
Qed.

Section InvariantFacts.

Variable call_fn : fid -> list val -> M val.

(** X4.  That the getter of every [classproperty] object is a
    [classmethod] or [staticmethod] object is an invariant of the library's
    own operations: it holds of the empty heap and is kept by constructing
    a [classproperty] (with any getter and setter arguments, whenever the
    construction completes), by [setter], by constructing a
    [NonDataProperty], by creating an instance and by an assignment on a
    class that [type.__setattr__] carries out. *)
Theorem descriptor_fields_stay_wrapped :
  forall (h : heap),
    methods_wrapped h ->
    (forall fget fset r h',
        classproperty___init__ fget fset h = Ok r h' -> methods_wrapped h')
    /\ (forall self fset r h',
          setter self fset h = Ok r h' -> methods_wrapped h')
    /\ (forall fget r h',
          NonDataProperty___init__ fget h = Ok r h' -> methods_wrapped h')
    /\ (forall c r h', new_instance c h = Ok r h' -> methods_wrapped h')
    /\ (forall X key v r h',
          type___setattr__ X key v h = Ok r h' -> methods_wrapped h').
Proof.
  intros h Hh. split; [|split; [|split; [|split]]].
  - intros fget fset r h' H.
    destruct (classproperty_init_Ok fget fset r h h' H) as [fs' ->].
    apply methods_wrapped_app; [exact Hh|].
    intros fg fs [= <- _]. apply ensure_method_wrapped.
  - intros self fset r h' H.
    unfold setter, bind, classproperty_set_fset, ret in H.
    destruct self as [ | | | | | | | | l ]; try discriminate H.
    destruct (h !! l) as [[ | | | fg0 fs0 ]|] eqn:Hl; try discriminate H.
    injection H as _ <-. apply methods_wrapped_insert; [exact Hh|].
    intros fg fs [= <- _]. exact (Hh l fg0 fs0 Hl).
  - intros fget r h' H. rewrite NonDataProperty_init_eq in H.
    destruct (negb (py_is fget VNone) && callable h fget); [|discriminate H].
    injection H as _ <-. apply methods_wrapped_app; [exact Hh|].
    intros fg fs; discriminate.
  - intros c r h' H. injection H as _ <-.
    apply methods_wrapped_app; [exact Hh|]. intros fg fs; discriminate.
  - intros X key v r h' H. unfold type___setattr__ in H.
    destruct (h !! X) as [[]|]; try discriminate H.
    injection H as _ <-. apply methods_wrapped_insert; [exact Hh|].
    intros fg fs; discriminate.
Qed.

(** X5.  [classproperty.__get__] does not look at its instance argument and
    needs the owner: called without one (the default [None] of its
    signature) on a well-formed descriptor it raises [TypeError] and leaves
    the state as it is, whatever the instance. *)
Theorem classproperty_get_needs_owner :
  forall (h : heap) (P : loc) (fg fs instance : val),
    methods_wrapped h ->
    h !! P = Some (OClassproperty fg fs) ->
    classproperty___get__ call_fn (VRef P) instance VNone h = Raise TypeError h.
Proof.
  intros h P fg fs instance Hh HP.
  pose proof (Hh P fg fs HP) as Hfg.
  rewrite (classproperty_get_eq call_fn h P fg fs instance VNone HP).
  unfold bound_call, bind.
  destruct fg; try discriminate Hfg; reflexivity.
Qed.

End InvariantFacts.

(** ** Inheritance and the metaclass *)

Section InheritanceFacts.

Variable call_fn : fid -> list val -> M val.

(** X6.  [Meta.__setattr__] looks in the class's own dictionary only.  For a
    class [Y] built with the metaclass that inherits the [classproperty] and
    has no entry of its own under the name, an assignment on [Y] is not
    handed to the descriptor: the value is stored in [Y]'s dictionary, where
    the lookup from [Y] then finds it first, and no other object changes.
    An assignment on an instance of [Y] does reach the descriptor, with [Y]
    as the owner. *)
Theorem inherited_classproperty_class_write_shadows :
  forall (h : heap) (Y P : loc) (mroY : list loc) (dY : dict) (fg fs : val)
         (attr : string) (V : val),
    h !! Y = Some (OClass MMeta mroY dY) ->
    dY !! attr = None ->
    type_lookup h Y attr = Some (VRef P) ->
    h !! P = Some (OClassproperty fg fs) ->
    py_setattr call_fn (VRef Y) attr V h
    = Ok VNone (<[Y := OClass MMeta mroY (<[attr := V]> dY)]> h)
    /\ type_lookup (<[Y := OClass MMeta mroY (<[attr := V]> dY)]> h) Y attr = Some V
    /\ (forall l, l <> Y ->
          (<[Y := OClass MMeta mroY (<[attr := V]> dY)]> h) !! l = h !! l)
    /\ (forall y dy,
          h !! y = Some (OInstance Y dy) ->
          py_setattr call_fn (VRef y) attr V h
          = if truthy fs then bound_call call_fn fs (VRef Y) [V] h
            else Raise AttributeError h).
Proof.
  intros h Y P mroY dY fg fs attr V HY Hd HC HP.
  assert (Hlt : Y < length h) by (eapply lookup_lt_Some; eauto).
  split; [|split; [|split]].
  - apply setattr_Meta_other; [exact HY|].
    intros Q fg' fs' HQ. congruence.
  - eapply type_lookup_own.
    + now rewrite list_lookup_insert_eq.
    + apply lookup_insert_eq.
  - intros l Hl. now apply list_lookup_insert_ne.
  - intros y dy Hy. eapply setattr_classproperty_instance; eauto.
Qed.

(** X7.  On a class built with the metaclass that holds the [classproperty]
    in its own dictionary, assigning through the class and assigning through
    an instance of it are the same operation: the same result and the same
    state, with a setter or without. *)
Theorem Meta_class_and_instance_write_agree :
  forall (h : heap) (X P x : loc) (mro : list loc) (d dx : dict)
         (fg fs : val) (attr : string) (V : val),
    h !! X = Some (OClass MMeta mro d) ->
    d !! attr = Some (VRef P) ->
    h !! P = Some (OClassproperty fg fs) ->
    h !! x = Some (OInstance X dx) ->
    py_setattr call_fn (VRef x) attr V h = py_setattr call_fn (VRef X) attr V h.
Proof.
  intros h X P x mro d dx fg fs attr V HX Hd HP Hx.
  rewrite (setattr_classproperty_Meta call_fn h X P mro d fg fs attr V HX Hd HP).
  eapply setattr_classproperty_instance; eauto.
  eapply type_lookup_own; eauto.
Qed.

End InheritanceFacts.

(** ** The class of the docstring, for every value and every heap *)

Lemma has_get_insert_class (h : heap) (X : loc) (m m' : metaclass)
    (mro mro' : list loc) (d d' : dict) (v : val) :
  h !! X = Some (OClass m mro d) ->
  has___get__ (<[X := OClass m' mro' d']> h) v = has___get__ h v.
Proof.
  intros HX. destruct v; try reflexivity. simpl.
  destruct (decide (X = l)) as [->|Hne].
  - rewrite list_lookup_insert_eq by (eapply lookup_lt_Some; eauto).
    now rewrite HX.
  - now rewrite list_lookup_insert_ne.
Qed.

(** [cls.val = V] on a class, whichever its metaclass. *)
Lemma setattr_val_class (cf : fid -> list val -> M val) (h : heap) (X : loc)
    (m : metaclass) (mro : list loc) (d : dict) (V : val) :
  h !! X = Some (OClass m mro d) ->
  (forall Q fg fs, d !! "val" = Some (VRef Q) ->
                   h !! Q <> Some (OClassproperty fg fs)) ->
  py_setattr cf (VRef X) "val" V h
  = Ok VNone (<[X := OClass m mro (<["val" := V]> d)]> h).
Proof.
  intros HX Hnot. destruct m.
  - unfold py_setattr, type___setattr__. now rewrite HX.
  - now apply setattr_Meta_other.
Qed.

(** X8.  The class of the docstring ([foo] a [classproperty] over
    [return cls.val] and [cls.val = val]), in any heap, with either
    metaclass, for every plain value [V] and every call depth from 2 on:
    the assignment [x.foo = V] on an instance stores [V] under [val] in the
    class and nothing in the instance; with the metaclass the assignment
    [X.foo = V] on the class does the same; and afterwards the class and
    every instance read [V] from [foo]. *)
Theorem docstring_class_round_trip :
  forall (n : nat) (h : heap) (X P x : loc) (m : metaclass) (mro : list loc)
         (d dx : dict) (V : val),
    h !! X = Some (OClass m mro d) ->
    d !! "foo" = Some (VRef P) ->
    h !! P = Some (OClassproperty (VClassmethod (VFunc "get_val"))
                     (VClassmethod (VFunc "set_val"))) ->
    (forall Q fg fs, d !! "val" = Some (VRef Q) ->
                     h !! Q <> Some (OClassproperty fg fs)) ->
    h !! x = Some (OInstance X dx) ->
    plain h V ->
    py_setattr (run doctest (S (S n))) (VRef x) "foo" V h
    = Ok VNone (<[X := OClass m mro (<["val" := V]> d)]> h)
    /\ (m = MMeta ->
          py_setattr (run doctest (S (S n))) (VRef X) "foo" V h
          = Ok VNone (<[X := OClass m mro (<["val" := V]> d)]> h))
    /\ py_getattr (run doctest (S (S n))) (VRef X) "foo"
         (<[X := OClass m mro (<["val" := V]> d)]> h)
       = Ok V (<[X := OClass m mro (<["val" := V]> d)]> h)
    /\ (forall y dy,
          (<[X := OClass m mro (<["val" := V]> d)]> h) !! y = Some (OInstance X dy) ->
          py_getattr (run doctest (S (S n))) (VRef y) "foo"
            (<[X := OClass m mro (<["val" := V]> d)]> h)
          = Ok V (<[X := OClass m mro (<["val" := V]> d)]> h))
    /\ (<[X := OClass m mro (<["val" := V]> d)]> h) !! x = Some (OInstance X dx).
Proof.
  intros n h X P x m mro d dx V HX Hd HP Hval Hx HV.
  set (h1 := <[X := OClass m mro (<["val" := V]> d)]> h).
  assert (HneP : X <> P) by (intros ->; congruence).
  assert (Hnex : X <> x) by (intros ->; congruence).
  assert (Hlt : X < length h) by (eapply lookup_lt_Some; eauto).
  assert (HX1 : h1 !! X = Some (OClass m mro (<["val" := V]> d)))
    by (unfold h1; now rewrite list_lookup_insert_eq).
  assert (HP1 : h1 !! P = Some (OClassproperty (VClassmethod (VFunc "get_val"))
                                  (VClassmethod (VFunc "set_val"))))
    by (unfold h1; rewrite list_lookup_insert_ne; auto).
  assert (Hd1 : (<["val" := V]> d) !! "foo" = Some (VRef P))
    by (rewrite lookup_insert_ne; [exact Hd|discriminate]).
  assert (HV1 : plain h1 V)
    by (unfold plain, h1; now rewrite (has_get_insert_class h X m m mro mro d _ V HX)).
  assert (Hset : bound_call (run doctest (S (S n))) (VClassmethod (VFunc "set_val"))
                   (VRef X) [V] h = Ok VNone h1).
  { rewrite bound_call_classmethod by discriminate.
    change (call (run doctest (S (S n))) (VFunc "set_val") [VRef X; V] h)
      with ((py_setattr (run doctest (S n)) (VRef X) "val" V ;;; ret VNone) h).
    unfold bind.
    now rewrite (setattr_val_class _ h X m mro d V HX Hval). }
  assert (Hget : bound_call (run doctest (S (S n))) (VClassmethod (VFunc "get_val"))
                   (VRef X) [] h1 = Ok V h1).
  { eapply get_val_reads_class; eauto. apply lookup_insert_eq. }
  split; [|split; [|split; [|split]]].
  - rewrite (setattr_classproperty_instance _ h x X P dx _ _ "foo" V Hx
               (type_lookup_own h X m mro d "foo" _ HX Hd) HP).
    exact Hset.
  - intros ->.
    rewrite (setattr_classproperty_Meta _ h X P mro d _ _ "foo" V HX Hd HP).
    exact Hset.
  - rewrite (getattr_classproperty_class _ h1 X P m mro _ _ _ "foo" HX1
               (type_lookup_own h1 X m mro _ "foo" _ HX1 Hd1) HP1).
    exact Hget.
  - intros y dy Hy.
    rewrite (getattr_classproperty_instance _ h1 y X P dy _ _ "foo" Hy
               (type_lookup_own h1 X m mro _ "foo" _ HX1 Hd1) HP1).
    exact Hget.
  - unfold h1. rewrite list_lookup_insert_ne; auto.
Qed.

(** ** NonDataProperty: the write is the instance's own *)

Section NonDataPropertyWrites.

Variable call_fn : fid -> list val -> M val.

Lemma setattr_NonDataProperty (h : heap) (C P x : loc) (dx : dict)
    (fget : val) (attr : string) (V : val) :
  type_lookup h C attr = Some (VRef P) ->
  h !! P = Some (ONonDataProperty fget) ->
  h !! x = Some (OInstance C dx) ->
  py_setattr call_fn (VRef x) attr V h
  = Ok VNone (<[x := OInstance C (<[attr := V]> dx)]> h).
Proof.
  intros HC HP Hx. unfold py_setattr, object___setattr__. rewrite Hx, HC.
  unfold has___set__. now rewrite HP.
Qed.

(** X9.  An assignment on an instance, under a name held by a
    [NonDataProperty], changes that instance and nothing else, whether or
    not the instance had an entry already: every other object of the heap is
    as before, another instance without an entry of its own still gets the
    getter called on itself, and the class still reads the descriptor
    object. *)
Theorem NonDataProperty_write_is_local :
  forall (h : heap) (C P x : loc) (dx : dict) (fget : val) (attr : string)
         (V : val),
    type_lookup h C attr = Some (VRef P) ->
    h !! P = Some (ONonDataProperty fget) ->
    h !! x = Some (OInstance C dx) ->
    py_setattr call_fn (VRef x) attr V h
    = Ok VNone (<[x := OInstance C (<[attr := V]> dx)]> h)
    /\ (forall l, l <> x ->
          (<[x := OInstance C (<[attr := V]> dx)]> h) !! l = h !! l)
    /\ (forall y dy,
          y <> x -> h !! y = Some (OInstance C dy) -> dy !! attr = None ->
          py_getattr call_fn (VRef y) attr (<[x := OInstance C (<[attr := V]> dx)]> h)
          = call call_fn fget [VRef y] (<[x := OInstance C (<[attr := V]> dx)]> h))
    /\ (forall m mro d,
          h !! C = Some (OClass m mro d) ->
          py_getattr call_fn (VRef C) attr (<[x := OInstance C (<[attr := V]> dx)]> h)
          = Ok (VRef P) (<[x := OInstance C (<[attr := V]> dx)]> h)).
Proof.
  intros h C P x dx fget attr V HC HP Hx.
  set (h1 := <[x := OInstance C (<[attr := V]> dx)]> h).
  assert (H01 : same_class_level h h1)
    by (eapply same_class_level_insert; eauto).
  assert (HC1 : type_lookup h1 C attr = Some (VRef P))
    by (rewrite <- (same_class_level_type_lookup h h1 C attr H01); exact HC).
  assert (HP1 : h1 !! P = Some (ONonDataProperty fget))
    by (eapply same_class_level_lookup; eauto; discriminate).
  split; [|split; [|split]].
  - now apply setattr_NonDataProperty with (P := P) (fget := fget).
  - intros l Hl. unfold h1. now apply list_lookup_insert_ne.
  - intros y dy Hne Hy Hdy.
    assert (Hy1 : h1 !! y = Some (OInstance C dy))
      by (unfold h1; rewrite list_lookup_insert_ne; auto).
    rewrite (getattr_NonDataProperty call_fn h1 C P y dy fget attr HC1 HP1 Hy1).
    now rewrite Hdy.
  - intros m mro d HCls.
    assert (HCls1 : h1 !! C = Some (OClass m mro d))
      by (eapply same_class_level_lookup; eauto; discriminate).
    unfold py_getattr, type___getattribute__. rewrite HCls1, HC1.
    unfold has___get__. rewrite HP1. simpl. now rewrite HP1.
Qed.

(** X10.  The attribute can be set again: a second assignment replaces the
    first, leaving the state a single assignment of the later value leaves,
    and the read that follows an assignment returns the value assigned,
    without calling the getter. *)
Theorem NonDataProperty_write_again :
  forall (h : heap) (C P x : loc) (dx : dict) (fget : val) (attr : string)
         (V W : val),
    type_lookup h C attr = Some (VRef P) ->
    h !! P = Some (ONonDataProperty fget) ->
    h !! x = Some (OInstance C dx) ->
    (py_setattr call_fn (VRef x) attr V ;;; py_setattr call_fn (VRef x) attr W) h
    = py_setattr call_fn (VRef x) attr W h
    /\ (py_setattr call_fn (VRef x) attr V ;;; py_setattr call_fn (VRef x) attr W ;;;
        py_getattr call_fn (VRef x) attr) h
       = Ok W (<[x := OInstance C (<[attr := W]> dx)]> h).
Proof.
  intros h C P x dx fget attr V W HC HP Hx.
  set (h1 := <[x := OInstance C (<[attr := V]> dx)]> h).
  assert (Hlt : x < length h) by (eapply lookup_lt_Some; eauto).
  assert (H01 : same_class_level h h1)
    by (eapply same_class_level_insert; eauto).
  assert (HC1 : type_lookup h1 C attr = Some (VRef P))
    by (rewrite <- (same_class_level_type_lookup h h1 C attr H01); exact HC).
  assert (HP1 : h1 !! P = Some (ONonDataProperty fget))
    by (eapply same_class_level_lookup; eauto; discriminate).
  assert (Hx1 : h1 !! x = Some (OInstance C (<[attr := V]> dx)))
    by (unfold h1; now rewrite list_lookup_insert_eq).
  assert (E : (py_setattr call_fn (VRef x) attr V ;;;
               py_setattr call_fn (VRef x) attr W) h
              = Ok VNone (<[x := OInstance C (<[attr := W]> dx)]> h)).
  { unfold bind.
    rewrite (setattr_NonDataProperty h C P x dx fget attr V HC HP Hx).
    fold h1.
    rewrite (setattr_NonDataProperty h1 C P x _ fget attr W HC1 HP1 Hx1).
    unfold h1. now rewrite list_insert_insert_eq, insert_insert_eq. }
  split.
  - rewrite E. symmetry.
    now apply setattr_NonDataProperty with (P := P) (fget := fget).
  - set (h2 := <[x := OInstance C (<[attr := W]> dx)]> h).
    assert (H02 : same_class_level h h2)
      by (eapply same_class_level_insert; eauto).
    assert (HC2 : type_lookup h2 C attr = Some (VRef P))
      by (rewrite <- (same_class_level_type_lookup h h2 C attr H02); exact HC).
    assert (HP2 : h2 !! P = Some (ONonDataProperty fget))
      by (eapply same_class_level_lookup; eauto; discriminate).
    assert (Hx2 : h2 !! x = Some (OInstance C (<[attr := W]> dx)))
      by (unfold h2; now rewrite list_lookup_insert_eq).
    unfold bind in E |- *.
    destruct (py_setattr call_fn (VRef x) attr V h) as [a ha| | |];
      try discriminate E.
    rewrite E. fold h2.
    rewrite (getattr_NonDataProperty call_fn h2 C P x _ fget attr HC2 HP2 Hx2).
    now rewrite lookup_insert_eq.
Qed.

End NonDataPropertyWrites.

(** ** The further properties at the classes of the docstrings *)

Lemma setter_chains_last_wins_witness :
  heap_of (build_GetOnly MMeta) !! 0
  = Some (OClassproperty (VClassmethod (VFunc "get_bar")) VNone)
  /\ setter (VRef 0) (VFunc "set_val") (heap_of (build_GetOnly MMeta))
     = Ok (VRef 0)
         (<[0 := OClassproperty (VClassmethod (VFunc "get_bar"))
                   (VClassmethod (VFunc "set_val"))]> (heap_of (build_GetOnly MMeta)))
  /\ (let* p := setter (VRef 0) (VFunc "set_val") in
      setter p (VClassmethod (VFunc "get_val"))) (heap_of (build_GetOnly MMeta))
     = setter (VRef 0) (VClassmethod (VFunc "get_val")) (heap_of (build_GetOnly MMeta)).
Proof.
  assert (H0 : heap_of (build_GetOnly MMeta) !! 0
               = Some (OClassproperty (VClassmethod (VFunc "get_bar")) VNone))
    by (vm_compute; reflexivity).
  destruct (setter_chains_last_wins _ 0 _ _ (VFunc "set_val")
              (VClassmethod (VFunc "get_val")) H0) as (Ha & _ & Hc).
  split; [exact H0|]. split; [exact Ha|exact Hc].
Defined.

Lemma setter_then_write_calls_it_witness :
  heap_of (build_GetOnly MMeta) !! 1 = Some (OClass MMeta [] {[ "foo" := VRef 0 ]})
  /\ py_setattr py (VRef 1) "foo" (VInt 3) (heap_of (build_GetOnly MMeta))
     = Raise AttributeError (heap_of (build_GetOnly MMeta))
  /\ exists h',
       setter (VRef 0) (VFunc "set_val") (heap_of (build_GetOnly MMeta)) = Ok (VRef 0) h'
       /\ py_setattr py (VRef 1) "foo" (VInt 3) h' = py "set_val" [VRef 1; VInt 3] h'.
Proof.
  assert (H1 : heap_of (build_GetOnly MMeta) !! 1
               = Some (OClass MMeta [] {[ "foo" := VRef 0 ]}))
    by (vm_compute; reflexivity).
  assert (H2 : ({[ "foo" := VRef 0 ]} : dict) !! "foo" = Some (VRef 0))
    by (vm_compute; reflexivity).
  assert (H0 : heap_of (build_GetOnly MMeta) !! 0
               = Some (OClassproperty (VClassmethod (VFunc "get_bar")) VNone))
    by (vm_compute; reflexivity).
  destruct (setter_then_write_calls_it py _ 1 0 [] _ _ "set_val" "foo" (VInt 3)
              H1 H2 H0) as (Hbefore & h' & Hs & Hafter & _).
  split; [exact H1|]. split; [exact Hbefore|].
  exists h'. split; [exact Hs|exact Hafter].
Defined.

Lemma descriptor_fields_stay_wrapped_witness :
  methods_wrapped []
  /\ methods_wrapped [OClassproperty (VClassmethod (VFunc "get_val"))
                        (VClassmethod (VFunc "set_val"))].
Proof.
  split; [exact methods_wrapped_nil|].
  destruct (descriptor_fields_stay_wrapped [] methods_wrapped_nil) as (Hinit & _).
  apply (Hinit (VFunc "get_val") (VFunc "set_val") (VRef 0)). reflexivity.
Defined.

Lemma classproperty_get_needs_owner_witness :
  methods_wrapped (heap_of (build_X MMeta))
  /\ classproperty___get__ py (VRef 0) (VRef 2) VNone (heap_of (build_X MMeta))
     = Raise TypeError (heap_of (build_X MMeta)).
Proof.
  assert (Hw : methods_wrapped (heap_of (build_X MMeta))).
  { intros P fg fs H.
    destruct P as [|[|[|[|P]]]]; vm_compute in H; try discriminate H.
    injection H as <- _. reflexivity. }
  split; [exact Hw|].
  apply (classproperty_get_needs_owner py _ 0
           (VClassmethod (VFunc "get_val")) (VClassmethod (VFunc "set_val"))
           (VRef 2) Hw).
  vm_compute; reflexivity.
Defined.

Lemma inherited_classproperty_class_write_shadows_witness :
  heap_of build_Sub !! 4 = Some (OClass MMeta [1] ∅)
  /\ type_lookup (heap_of build_Sub) 4 "foo" = Some (VRef 0)
  /\ py_setattr py (VRef 4) "foo" (VInt 9) (heap_of build_Sub)
     = Ok VNone (<[4 := OClass MMeta [1] {[ "foo" := VInt 9 ]}]> (heap_of build_Sub))
  /\ py_setattr py (VRef 5) "foo" (VInt 9) (heap_of build_Sub)
     = bound_call py (VClassmethod (VFunc "set_val")) (VRef 4) [VInt 9] (heap_of build_Sub).
Proof.
  assert (H4 : heap_of build_Sub !! 4 = Some (OClass MMeta [1] ∅))
    by (vm_compute; reflexivity).
  assert (Hd : (∅ : dict) !! "foo" = None) by reflexivity.
  assert (HC : type_lookup (heap_of build_Sub) 4 "foo" = Some (VRef 0))
    by (vm_compute; reflexivity).
  assert (H0 : heap_of build_Sub !! 0
               = Some (OClassproperty (VClassmethod (VFunc "get_val"))
                         (VClassmethod (VFunc "set_val"))))
    by (vm_compute; reflexivity).
  destruct (inherited_classproperty_class_write_shadows py _ 4 0 [1] ∅ _ _ "foo"
              (VInt 9) H4 Hd HC H0) as (Hcls & _ & _ & Hinst).
  split; [exact H4|]. split; [exact HC|]. split; [exact Hcls|].
  apply (Hinst 5 ∅). vm_compute; reflexivity.
Defined.

Lemma Meta_class_and_instance_write_agree_witness :
  heap_of (build_X MMeta) !! 2 = Some (OInstance 1 ∅)
  /\ py_setattr py (VRef 2) "foo" (VInt 5) (heap_of (build_X MMeta))
     = py_setattr py (VRef 1) "foo" (VInt 5) (heap_of (build_X MMeta)).
Proof.
  assert (H1 : heap_of (build_X MMeta) !! 1
               = Some (OClass MMeta [] (<[ "val" := VNone ]> {[ "foo" := VRef 0 ]})))
    by (vm_compute; reflexivity).
  assert (H2 : (<[ "val" := VNone ]> {[ "foo" := VRef 0 ]} : dict) !! "foo"
               = Some (VRef 0))
    by (vm_compute; reflexivity).
  assert (H0 : heap_of (build_X MMeta) !! 0
               = Some (OClassproperty (VClassmethod (VFunc "get_val"))
                         (VClassmethod (VFunc "set_val"))))
    by (vm_compute; reflexivity).
  assert (Hx : heap_of (build_X MMeta) !! 2 = Some (OInstance 1 ∅))
    by (vm_compute; reflexivity).
  split; [exact Hx|].
  exact (Meta_class_and_instance_write_agree py _ 1 0 2 [] _ ∅ _ _ "foo" (VInt 5)
           H1 H2 H0 Hx).
Defined.

Lemma docstring_class_round_trip_witness :
  plain (heap_of (build_X MMeta)) (VInt 5)
  /\ py_setattr py (VRef 2) "foo" (VInt 5) (heap_of (build_X MMeta))
     = Ok VNone (heap_of (build_X_then_write MMeta (VInt 5)))
  /\ py_getattr py (VRef 1) "foo" (heap_of (build_X_then_write MMeta (VInt 5)))
     = Ok (VInt 5) (heap_of (build_X_then_write MMeta (VInt 5)))
  /\ py_getattr py (VRef 3) "foo" (heap_of (build_X_then_write MMeta (VInt 5)))
     = Ok (VInt 5) (heap_of (build_X_then_write MMeta (VInt 5))).
Proof.
  assert (H1 : heap_of (build_X MMeta) !! 1
               = Some (OClass MMeta [] (<[ "val" := VNone ]> {[ "foo" := VRef 0 ]})))
    by (vm_compute; reflexivity).
  assert (H2 : (<[ "val" := VNone ]> {[ "foo" := VRef 0 ]} : dict) !! "foo"
               = Some (VRef 0))
    by (vm_compute; reflexivity).
  assert (H0 : heap_of (build_X MMeta) !! 0
               = Some (OClassproperty (VClassmethod (VFunc "get_val"))
                         (VClassmethod (VFunc "set_val"))))
    by (vm_compute; reflexivity).
  assert (Hval : forall Q fg fs,
             (<[ "val" := VNone ]> {[ "foo" := VRef 0 ]} : dict) !! "val" = Some (VRef Q) ->
             heap_of (build_X MMeta) !! Q <> Some (OClassproperty fg fs))
    by (intros Q fg fs HQ; vm_compute in HQ; discriminate HQ).
  assert (Hx : heap_of (build_X MMeta) !! 2 = Some (OInstance 1 ∅))
    by (vm_compute; reflexivity).
  assert (HV : plain (heap_of (build_X MMeta)) (VInt 5)) by reflexivity.
  assert (Eh : <[1 := OClass MMeta []
                        (<[ "val" := VInt 5 ]> (<[ "val" := VNone ]> {[ "foo" := VRef 0 ]}))]>
                 (heap_of (build_X MMeta))
               = heap_of (build_X_then_write MMeta (VInt 5)))
    by (vm_compute; reflexivity).
  destruct (docstring_class_round_trip 1 _ 1 0 2 MMeta [] _ ∅ (VInt 5)
              H1 H2 H0 Hval Hx HV) as (Hw & _ & Hc & Hi & _).
  rewrite <- Eh.
  split; [exact HV|]. split; [exact Hw|]. split; [exact Hc|].
  apply (Hi 3 ∅). vm_compute; reflexivity.
Defined.

Lemma NonDataProperty_write_is_local_witness :
  heap_of build_NonData !! 2 = Some (OInstance 1 ∅)
  /\ py_setattr py (VRef 2) "foo" (VInt 4) (heap_of build_NonData)
     = Ok VNone (<[2 := OInstance 1 {[ "foo" := VInt 4 ]}]> (heap_of build_NonData))
  /\ py_getattr py (VRef 1) "foo"
       (<[2 := OInstance 1 {[ "foo" := VInt 4 ]}]> (heap_of build_NonData))
     = Ok (VRef 0) (<[2 := OInstance 1 {[ "foo" := VInt 4 ]}]> (heap_of build_NonData)).
Proof.
  assert (H1 : type_lookup (heap_of build_NonData) 1 "foo" = Some (VRef 0))
    by (vm_compute; reflexivity).
  assert (H0 : heap_of build_NonData !! 0 = Some (ONonDataProperty (VFunc "foo_3")))
    by (vm_compute; reflexivity).
  assert (Hx : heap_of build_NonData !! 2 = Some (OInstance 1 ∅))
    by (vm_compute; reflexivity).
  destruct (NonDataProperty_write_is_local py _ 1 0 2 ∅ _ "foo" (VInt 4) H1 H0 Hx)
    as (Hw & _ & _ & Hc).
  split; [exact Hx|]. split; [exact Hw|].
  apply (Hc MType [] {[ "foo" := VRef 0 ]}). vm_compute; reflexivity.
Defined.

Lemma NonDataProperty_write_again_witness :
  type_lookup (heap_of build_NonData) 1 "foo" = Some (VRef 0)
  /\ (py_setattr py (VRef 2) "foo" (VInt 4) ;;; py_setattr py (VRef 2) "foo" (VInt 7) ;;;
      py_getattr py (VRef 2) "foo") (heap_of build_NonData)
     = Ok (VInt 7) (<[2 := OInstance 1 {[ "foo" := VInt 7 ]}]> (heap_of build_NonData)).
Proof.
  assert (H1 : type_lookup (heap_of build_NonData) 1 "foo" = Some (VRef 0))
    by (vm_compute; reflexivity).
  assert (H0 : heap_of build_NonData !! 0 = Some (ONonDataProperty (VFunc "foo_3")))
    by (vm_compute; reflexivity).
  assert (Hx : heap_of build_NonData !! 2 = Some (OInstance 1 ∅))
    by (vm_compute; reflexivity).
  destruct (NonDataProperty_write_again py _ 1 0 2 ∅ _ "foo" (VInt 4) (VInt 7)
              H1 H0 Hx) as (_ & Hr).
  split; [exact H1|exact Hr].
Defined.

(** ** Which class the setter is called on *)

Section OwnerFacts.

Variable call_fn : fid -> list val -> M val.

(** X11.  [classproperty.__set__] keeps the owner it is given only when that
    owner's type is exactly [classproperty.Meta]; any other owner is
    replaced by its type.  So, with a setter in place: a class built with
    the metaclass is the class the setter is called on; an instance gives
    its class; and a class that is not built with the metaclass, handed to
    [__set__] directly, gives [type], not the class. *)
Theorem classproperty_set_owner_resolution :
  forall (h : heap) (P : loc) (fg fs V : val),
    h !! P = Some (OClassproperty fg fs) ->
    truthy fs = true ->
    (forall X mro d,
        h !! X = Some (OClass MMeta mro d) ->
        classproperty___set__ call_fn (VRef P) (VRef X) V h
        = bound_call call_fn fs (VRef X) [V] h)
    /\ (forall x C dx,
          h !! x = Some (OInstance C dx) ->
          classproperty___set__ call_fn (VRef P) (VRef x) V h
          = bound_call call_fn fs (VRef C) [V] h)
    /\ (forall X mro d,
          h !! X = Some (OClass MType mro d) ->
          classproperty___set__ call_fn (VRef P) (VRef X) V h
          = bound_call call_fn fs (VBuiltin BType) [V] h).
Proof.
  intros h P fg fs V HP Hfs. split; [|split].
  - intros X mro d HX.
    rewrite (classproperty_set_eq call_fn h P fg fs _ V HP), Hfs.
    unfold type_of. now rewrite HX.
  - intros x C dx Hx.
    rewrite (classproperty_set_eq call_fn h P fg fs _ V HP), Hfs.
    unfold type_of. now rewrite Hx.
  - intros X mro d HX.
    rewrite (classproperty_set_eq call_fn h P fg fs _ V HP), Hfs.
    unfold type_of. now rewrite HX.
Qed.

End OwnerFacts.

(** X12.  The state the docstring's property shares is that of the class the
    setter is called on.  Let [Y] inherit [foo] from [X] and have no [foo]
    of its own: an assignment of a plain [V] through an instance of [Y]
    stores [V] under [val] in [Y], so [Y] reads [V] from [foo], while [X]
    reads what it read before. *)
Theorem docstring_subclass_write_stays_on_subclass :
  forall (n : nat) (h : heap) (X Y P y : loc) (mX mY : metaclass)
         (mroX : list loc) (d dY dy : dict) (V W : val),
    h !! X = Some (OClass mX mroX d) ->
    d !! "foo" = Some (VRef P) ->
    d !! "val" = Some W ->
    plain h W ->
    h !! P = Some (OClassproperty (VClassmethod (VFunc "get_val"))
                     (VClassmethod (VFunc "set_val"))) ->
    h !! Y = Some (OClass mY (X :: mroX) dY) ->
    dY !! "foo" = None ->
    (forall Q fg fs, dY !! "val" = Some (VRef Q) ->
                     h !! Q <> Some (OClassproperty fg fs)) ->
    h !! y = Some (OInstance Y dy) ->
    plain h V ->
    py_getattr (run doctest (S (S n))) (VRef X) "foo" h = Ok W h
    /\ py_setattr (run doctest (S (S n))) (VRef y) "foo" V h
       = Ok VNone (<[Y := OClass mY (X :: mroX) (<["val" := V]> dY)]> h)
    /\ py_getattr (run doctest (S (S n))) (VRef Y) "foo"
         (<[Y := OClass mY (X :: mroX) (<["val" := V]> dY)]> h)
       = Ok V (<[Y := OClass mY (X :: mroX) (<["val" := V]> dY)]> h)
    /\ py_getattr (run doctest (S (S n))) (VRef X) "foo"
         (<[Y := OClass mY (X :: mroX) (<["val" := V]> dY)]> h)
       = Ok W (<[Y := OClass mY (X :: mroX) (<["val" := V]> dY)]> h).
Proof.
  intros n h X Y P y mX mY mroX d dY dy V W HX Hfoo Hval HW HP HY HdY HvalY Hy HV.
  set (h1 := <[Y := OClass mY (X :: mroX) (<["val" := V]> dY)]> h).
  assert (HneXY : Y <> X) by (intros ->; congruence).
  assert (HneP : Y <> P) by (intros ->; congruence).
  assert (Hlt : Y < length h) by (eapply lookup_lt_Some; eauto).
  assert (HX1 : h1 !! X = Some (OClass mX mroX d))
    by (unfold h1; rewrite list_lookup_insert_ne; auto).
  assert (HY1 : h1 !! Y = Some (OClass mY (X :: mroX) (<["val" := V]> dY)))
    by (unfold h1; now rewrite list_lookup_insert_eq).
  assert (HP1 : h1 !! P = Some (OClassproperty (VClassmethod (VFunc "get_val"))
                                  (VClassmethod (VFunc "set_val"))))
    by (unfold h1; rewrite list_lookup_insert_ne; auto).
  assert (HV1 : plain h1 V)
    by (unfold plain, h1; now rewrite (has_get_insert_class h Y mY mY _ _ dY _ V HY)).
  assert (HW1 : plain h1 W)
    by (unfold plain, h1; now rewrite (has_get_insert_class h Y mY mY _ _ dY _ W HY)).
  assert (HCY : type_lookup h Y "foo" = Some (VRef P)).
  { unfold type_lookup, class_mro. rewrite HY. simpl.
    unfold class_dict at 1. rewrite HY, HdY.
    unfold class_dict. now rewrite HX, Hfoo. }
  assert (HCY1 : type_lookup h1 Y "foo" = Some (VRef P)).
  { unfold type_lookup, class_mro. rewrite HY1. simpl.
    unfold class_dict at 1. rewrite HY1.
    rewrite lookup_insert_ne by discriminate. rewrite HdY.
    unfold class_dict. now rewrite HX1, Hfoo. }
  split; [|split; [|split]].
  - rewrite (getattr_classproperty_class _ h X P mX mroX d _ _ "foo" HX
               (type_lookup_own h X mX mroX d "foo" _ HX Hfoo) HP).
    eapply get_val_reads_class; eauto.
  - rewrite (setattr_classproperty_instance _ h y Y P dy _ _ "foo" V Hy HCY HP).
    simpl truthy. cbv iota.
    rewrite bound_call_classmethod by discriminate.
    change (call (run doctest (S (S n))) (VFunc "set_val") [VRef Y; V] h)
      with ((py_setattr (run doctest (S n)) (VRef Y) "val" V ;;; ret VNone) h).
    unfold bind.
    now rewrite (setattr_val_class _ h Y mY (X :: mroX) dY V HY HvalY).
  - rewrite (getattr_classproperty_class _ h1 Y P mY _ _ _ _ "foo" HY1 HCY1 HP1).
    eapply get_val_reads_class; eauto. apply lookup_insert_eq.
  - rewrite (getattr_classproperty_class _ h1 X P mX mroX d _ _ "foo" HX1
               (type_lookup_own h1 X mX mroX d "foo" _ HX1 Hfoo) HP1).
    eapply get_val_reads_class; eauto.
Qed.

Lemma classproperty_set_owner_resolution_witness :
  heap_of (build_X MType) !! 0
  = Some (OClassproperty (VClassmethod (VFunc "get_val")) (VClassmethod (VFunc "set_val")))
  /\ classproperty___set__ py (VRef 0) (VRef 2) (VInt 5) (heap_of (build_X MType))
     = py "set_val" [VRef 1; VInt 5] (heap_of (build_X MType))
  /\ classproperty___set__ py (VRef 0) (VRef 1) (VInt 5) (heap_of (build_X MType))
     = py "set_val" [VBuiltin BType; VInt 5] (heap_of (build_X MType)).
Proof.
  assert (H0 : heap_of (build_X MType) !! 0
               = Some (OClassproperty (VClassmethod (VFunc "get_val"))
                         (VClassmethod (VFunc "set_val"))))
    by (vm_compute; reflexivity).
  destruct (classproperty_set_owner_resolution py _ 0 _ _ (VInt 5) H0 eq_refl)
    as (_ & Hinst & Hcls).
  split; [exact H0|]. split.
  - rewrite (Hinst 2 1 ∅) by (vm_compute; reflexivity).
    now rewrite bound_call_classmethod.
  - rewrite (Hcls 1 [] (<[ "val" := VNone ]> {[ "foo" := VRef 0 ]}))
      by (vm_compute; reflexivity).
    now rewrite bound_call_classmethod.
Defined.

Lemma docstring_subclass_write_stays_on_subclass_witness :
  heap_of build_Sub !! 4 = Some (OClass MMeta [1] ∅)
  /\ heap_of build_Sub !! 5 = Some (OInstance 4 ∅)
  /\ py_setattr py (VRef 5) "foo" (VInt 9) (heap_of build_Sub)
     = Ok VNone (<[4 := OClass MMeta [1] {[ "val" := VInt 9 ]}]> (heap_of build_Sub))
  /\ py_getattr py (VRef 4) "foo"
       (<[4 := OClass MMeta [1] {[ "val" := VInt 9 ]}]> (heap_of build_Sub))
     = Ok (VInt 9) (<[4 := OClass MMeta [1] {[ "val" := VInt 9 ]}]> (heap_of build_Sub))
  /\ py_getattr py (VRef 1) "foo"
       (<[4 := OClass MMeta [1] {[ "val" := VInt 9 ]}]> (heap_of build_Sub))
     = Ok VNone (<[4 := OClass MMeta [1] {[ "val" := VInt 9 ]}]> (heap_of build_Sub)).
Proof.
  assert (H1 : heap_of build_Sub !! 1
               = Some (OClass MMeta [] (<[ "val" := VNone ]> {[ "foo" := VRef 0 ]})))
    by (vm_compute; reflexivity).
  assert (Hfoo : (<[ "val" := VNone ]> {[ "foo" := VRef 0 ]} : dict) !! "foo"
                 = Some (VRef 0))
    by (vm_compute; reflexivity).
  assert (Hval : (<[ "val" := VNone ]> {[ "foo" := VRef 0 ]} : dict) !! "val"
                 = Some VNone)
    by (vm_compute; reflexivity).
  assert (H0 : heap_of build_Sub !! 0
               = Some (OClassproperty (VClassmethod (VFunc "get_val"))
                         (VClassmethod (VFunc "set_val"))))
    by (vm_compute; reflexivity).
  assert (H4 : heap_of build_Sub !! 4 = Some (OClass MMeta [1] ∅))
    by (vm_compute; reflexivity).
  assert (HdY : (∅ : dict) !! "foo" = None) by reflexivity.
  assert (HvY : forall Q fg fs,
             (∅ : dict) !! "val" = Some (VRef Q) ->
             heap_of build_Sub !! Q <> Some (OClassproperty fg fs))
    by (intros Q fg fs HQ; discriminate HQ).
  assert (H5 : heap_of build_Sub !! 5 = Some (OInstance 4 ∅))
    by (vm_compute; reflexivity).
  destruct (docstring_subclass_write_stays_on_subclass 1 _ 1 4 0 5 MMeta MMeta []
              _ ∅ ∅ (VInt 9) VNone H1 Hfoo Hval eq_refl H0 H4 HdY HvY H5 eq_refl)
    as (_ & Hw & HrY & HrX).
  split; [exact H4|]. split; [exact H5|].
  split; [exact Hw|]. split; [exact HrY|exact HrX].
Defined.

Lemma init_with_setter_is_init_then_setter_witness :
  py_bool (VFunc "set_val") [] = Ok true []
  /\ classproperty___init__ (VFunc "get_val") (VFunc "set_val") []
     = (let* p := classproperty___init__ (VFunc "get_val") VNone in
        setter p (VFunc "set_val")) []
  /\ classproperty___init__ (VFunc "get_val") (VInt 0) []
     = Ok (VRef 0) [OClassproperty (VClassmethod (VFunc "get_val")) (VInt 0)].
Proof.
  destruct (init_with_setter_is_init_then_setter py [] (VFunc "get_val")
              (VFunc "set_val")) as (Htrue & _).
  destruct (init_with_setter_is_init_then_setter py [] (VFunc "get_val")
              (VInt 0)) as (_ & Hfalse).
  split; [reflexivity|]. split.
  - apply Htrue. reflexivity.
  - apply Hfalse. reflexivity.
Defined.
